(** * Group provisioning handlers: a shallow embedding

    The development embeds three Go functions of the repository:

    - [getCurrentUser] (package grpc_service), the identity resolver;
    - [PatchGroup] (package web), the group provisioning workflow;
    - [DeleteGroup] (package web).

    The handlers talk to two collaborators, the local store
    ([database.Database]) and the hosting provider client ([scm.SCM]).
    Both are Go interfaces; here they are records of operations over an
    abstract world [W].  Every call a handler makes is written to a log,
    in the order of the calls, together with what the collaborator
    answered. *)

From Stdlib Require Import List String Ascii NArith Bool Lia.
From stdpp Require Import base option gmap strings.
Import ListNotations.

Local Open Scope string_scope.
Local Open Scope N_scope.

(** ** Errors *)

(** gRPC status codes used by [getCurrentUser]. *)
Inductive Code := Aborted | Unauthenticated | PermissionDenied | NotFound.

(** The two sentinel errors of package strconv. *)
Inductive strconvErr := ErrSyntax | ErrRange.

(** Go [error] values that the handlers create, compare or pass on. *)
Inductive error :=
| HTTPError (code : N) (message : string)          (* echo.NewHTTPError *)
| StatusError (code : Code) (message : string)     (* status.Errorf *)
| NumError (func num : string) (err : strconvErr)  (* *strconv.NumError *)
| ErrRecordNotFound                                (* gorm.ErrRecordNotFound *)
| OtherError (message : string).                   (* any other error value *)

(** Go's [(T, error)] result pair with [err == nil] or [err != nil]. *)
Inductive res (A : Type) :=
| Ok (a : A)
| Err (e : error).
Arguments Ok {A} a.
Arguments Err {A} e.

Definition StatusOK : N := 200.
Definition StatusBadRequest : N := 400.
Definition StatusForbidden : N := 403.
Definition StatusNotFound : N := 404.

(** ** Data model *)

Module models.

Module RemoteIdentity.
Record t := mk { Provider : string; RemoteID : N; AccessToken : string }.
End RemoteIdentity.

(** [IsAdmin] is a [*bool]: [None] is the nil pointer. *)
Module User.
Record t := mk { ID : N; IsAdmin : option bool;
                 RemoteIdentities : list RemoteIdentity.t }.
End User.

Module Group.
Record t := mk { ID : N; Name : string; Status : N; CourseID : N;
                 Users : list User.t }.
End Group.

Module Course.
Record t := mk { ID : N; Provider : string; DirectoryID : N }.
End Course.

(** Modelled from the spec: the declaration of [models.RepoType] is not
    among the sources.  The data model describes it as a kind tag
    distinguishing individual from group repositories; [UserRepo] is the
    constant the handler names. *)
Inductive RepoType := UserRepo | GroupRepo.

Module Repository.
Record t := mk { DirectoryID : N; RepositoryID : N; HTMLURL : string;
                 Type_ : RepoType; UserID : N; GroupID : N }.
End Repository.

End models.

Module scm.

Module Directory.
Record t := mk { ID : N; Path : string }.
End Directory.

Module Repository.
Record t := mk { ID : N; Path : string; WebURL : string; Owner : string }.
End Repository.

Module CreateRepositoryOptions.
Record t := mk { Directory : Directory.t; Path : string; Private : bool }.
End CreateRepositoryOptions.

Module Team.
Record t := mk { ID : N }.
End Team.

Module CreateTeamOptions.
Record t := mk { Directory : Directory.t; TeamName : string;
                 Users : list string }.
End CreateTeamOptions.

Module AddTeamRepoOptions.
Record t := mk { TeamID : N; Owner : string; Repo : string }.
End AddTeamRepoOptions.

End scm.

(** The request body of [PatchGroup]. *)
Module UpdateGroupRequest.
Record t := mk { Status : N }.
End UpdateGroupRequest.

(** ** strconv.ParseUint(s, 10, 64) *)

Definition maxUint64 : N := 18446744073709551615.

(** The smallest number such that [cutoff * 10 > maxUint64]. *)
Definition cutoff : N := maxUint64 / 10 + 1.

Definition digit (c : ascii) : option N :=
  let n := N_of_ascii c in
  if (48 <=? n) && (n <=? 57) then Some (n - 48) else None.

(** The digit loop: the first offending byte decides, a syntax error for
    a byte that is no decimal digit and a range error as soon as the
    value leaves 64 bits. *)
Fixpoint parseDigits (s : string) (n : N) : strconvErr + N :=
  match s with
  | EmptyString => inr n
  | String c rest =>
      match digit c with
      | None => inl ErrSyntax
      | Some d =>
          if cutoff <=? n then inl ErrRange
          else
            let n1 := n * 10 + d in
            if maxUint64 <? n1 then inl ErrRange else parseDigits rest n1
      end
  end.

Definition ParseUint (s : string) : res N :=
  match s with
  | EmptyString => Err (NumError "ParseUint" s ErrSyntax)
  | _ =>
      match parseDigits s 0 with
      | inl e => Err (NumError "ParseUint" s e)
      | inr n => Ok n
      end
  end.

(** ** The log of calls *)

Inductive Event :=
| EvGetUser (id : N) (r : res models.User.t)
| EvGetGroup (withRemoteIDs : bool) (id : N) (r : res models.Group.t)
| EvGetCourse (id : N) (r : res models.Course.t)
| EvDbCreateRepository (record : models.Repository.t) (r : option error)
| EvUpdateGroupStatus (gid status : N) (r : option error)
| EvDeleteGroup (gid : N) (r : option error)
| EvGetDirectory (id : N) (r : res scm.Directory.t)
| EvGetRepositories (dir : scm.Directory.t) (r : res (list scm.Repository.t))
| EvCreateRepository (opt : scm.CreateRepositoryOptions.t)
                     (r : res scm.Repository.t)
| EvGetUserNameByID (id : N) (r : res string)
| EvCreateTeam (opt : scm.CreateTeamOptions.t) (r : res scm.Team.t)
| EvAddTeamRepo (opt : scm.AddTeamRepoOptions.t) (r : option error).


Definition isDbCreateRepository (ev : Event) : bool :=
  match ev with EvDbCreateRepository _ _ => true | _ => false end.

Definition isCreateTeam (ev : Event) : bool :=
  match ev with EvCreateTeam _ _ => true | _ => false end.

Definition isGetUserNameByID (ev : Event) : bool :=
  match ev with EvGetUserNameByID _ _ => true | _ => false end.

(** Calls that reach the hosting provider. *)
Definition isRemote (ev : Event) : bool :=
  match ev with
  | EvGetDirectory _ _ | EvGetRepositories _ _ | EvCreateRepository _ _
  | EvGetUserNameByID _ _ | EvCreateTeam _ _ | EvAddTeamRepo _ _ => true
  | _ => false
  end.

(** Calls that write to the local store. *)
Definition isStoreWrite (ev : Event) : bool :=
  match ev with
  | EvDbCreateRepository _ _ | EvUpdateGroupStatus _ _ _ | EvDeleteGroup _ _ =>
      true
  | _ => false
  end.

(** Calls that change something on either side. *)
Definition isWrite (ev : Event) : bool :=
  match ev with
  | EvCreateRepository _ _ | EvCreateTeam _ _ | EvAddTeamRepo _ _ => true
  | _ => isStoreWrite ev
  end.

(** What an echo handler hands back: a response written with
    [c.NoContent(code)], a bare [return nil], or an error. *)
Inductive outcome :=
| NoContent (code : N)
| ReturnNil
| Failed (e : error).

Definition reported (o : outcome) : option error :=
  match o with Failed e => Some e | _ => None end.

(** The incoming gRPC context: its metadata, if any.  [metadata.MD] is a
    [map[string][]string]. *)
Module grpcContext.
Record t := mk { metadata : option (gmap string (list string)) }.
End grpcContext.

(** [md.Get(k)]: the values stored under [k], none when absent. *)
Definition MD_Get (md : gmap string (list string)) (k : string) : list string :=
  default [] (md !! k).

(** The echo context of a web request: path parameters, the outcome of
    decoding the body with [c.Bind], and the user the authentication
    middleware stored under ["user"]. *)
Module echoContext.
Record t := mk { Param : string -> string;
                 Bind : res UpdateGroupRequest.t;
                 user : models.User.t }.
End echoContext.

Section Handlers.

(** The joint state of the local store and of the hosting provider. *)
Context {W : Type}.

(** [database.Database], the methods the handlers call. *)
Record Database := {
  db_GetUser : N -> W -> res models.User.t * W;
  db_GetGroup : bool -> N -> W -> res models.Group.t * W;
  db_GetCourse : N -> W -> res models.Course.t * W;
  db_CreateRepository : models.Repository.t -> W -> option error * W;
  db_UpdateGroupStatus : N -> N -> W -> option error * W;
  db_DeleteGroup : N -> W -> option error * W
}.

(** [scm.SCM], the methods the handlers call. *)
Record SCM := {
  scm_GetDirectory : N -> W -> res scm.Directory.t * W;
  scm_GetRepositories : scm.Directory.t -> W -> res (list scm.Repository.t) * W;
  scm_CreateRepository :
    scm.CreateRepositoryOptions.t -> W -> res scm.Repository.t * W;
  scm_GetUserNameByID : N -> W -> res string * W;
  scm_CreateTeam : scm.CreateTeamOptions.t -> W -> res scm.Team.t * W;
  scm_AddTeamRepo : scm.AddTeamRepoOptions.t -> W -> option error * W
}.

(** Declarations of the repository that the handlers use and that are not
    among the sources: the status constants of package models, and the web
    package's [parseUint] and [getSCM]. *)
Variable Teacher : N.
Variable Rejected : N.
Variable parseUint : string -> res N.
Variable getSCM : echoContext.t -> string -> res SCM.

(** *** The handler monad

    A computation either goes on with a value or leaves the handler with
    an outcome; it threads the world and emits the log of its calls. *)
Definition M (A : Type) : Type := W -> (outcome + A) * W * list Event.

Definition ret {A} (a : A) : M A := fun w => (inr a, w, []).

Definition exit {A} (o : outcome) : M A := fun w => (inl o, w, []).

Definition bind {A B} (m : M A) (f : A -> M B) : M B :=
  fun w =>
    match m w with
    | (inl o, w1, t1) => (inl o, w1, t1)
    | (inr a, w1, t1) =>
        let '(r, w2, t2) := f a w1 in (r, w2, (t1 ++ t2)%list)
    end.

(** A call to a collaborator, logged with its answer. *)
Definition call {R} (op : W -> R * W) (ev : R -> Event) : M R :=
  fun w => let '(r, w1) := op w in (inr r, w1, [ev r]).

(** [if err != nil { return err }] *)
Definition try {A} (r : res A) : M A :=
  match r with
  | Ok a => ret a
  | Err e => exit (Failed e)
  end.

Definition tryErr (r : option error) : M unit :=
  match r with
  | None => ret tt
  | Some e => exit (Failed e)
  end.

Definition run (m : M outcome) (w : W) : outcome * W * list Event :=
  match m w with
  | (inl o, w1, t) => (o, w1, t)
  | (inr o, w1, t) => (o, w1, t)
  end.

Notation "x <- m ;; k" := (bind m (fun x => k))
  (at level 100, m at next level, right associativity).
Notation "m ;;; k" := (bind m (fun _ => k))
  (at level 100, right associativity).

(** *** getCurrentUser

    The function returns a user together with an [error]; its only call
    is the store's GetUser. *)

Definition getCurrentUser (ctx : grpcContext.t) (db : Database) (w : W)
  : res models.User.t * W * list Event :=
  match grpcContext.metadata ctx with
  | None => (Err (StatusError Aborted "Malformed request"), w, [])
  | Some meta =>
      let userValues := MD_Get meta "user" in
      if (length userValues =? 0)%nat then
        (Err (StatusError Unauthenticated "No user metadata"), w, [])
      else if negb (length userValues =? 1)%nat then
        (Err (StatusError PermissionDenied "Invalid user payload"), w, [])
      else
        let currentUser := nth 0 userValues "" in
        if String.eqb currentUser "" then
          (Err (StatusError Unauthenticated "Invalid user payload"), w, [])
        else
          match ParseUint currentUser with
          | Err err => (Err err, w, [])
          | Ok numID =>
              let '(r, w1) := db_GetUser db numID w in
              match r with
              | Err err => (Err err, w1, [EvGetUser numID r])
              | Ok usr => (Ok usr, w1, [EvGetUser numID r])
              end
          end
  end.

(** *** PatchGroup *)

(** Modelled from the spec: [getRemoteIDFor] is not among the sources.
    The membership resolver finds the member's linked entry for the
    course's provider and fails with NotFound when there is none. *)
Definition getRemoteIDFor (user : models.User.t) (provider : string)
  : res models.RemoteIdentity.t :=
  match List.find (fun v => String.eqb (models.RemoteIdentity.Provider v) provider)
                  (models.User.RemoteIdentities user) with
  | Some remote => Ok remote
  | None => Err (HTTPError StatusNotFound "Not Found")
  end.

(** [existing := make(map[string]*scm.Repository)] filled by the loop over
    the listing: a later repository replaces an earlier one at its path. *)
Definition existingOf (repos : list scm.Repository.t)
  : gmap string scm.Repository.t :=
  fold_left (fun existing repo => <[scm.Repository.Path repo := repo]> existing)
            repos ∅.

(** The loop over the members: one provider call per member, the first
    failure leaves the handler. *)
Fixpoint gitUserNamesOf (s : SCM) (provider : string)
  (users : list models.User.t) (gitUserNames : list string) : M (list string) :=
  match users with
  | [] => ret gitUserNames
  | user :: rest =>
      remote <- try (getRemoteIDFor user provider) ;;
      r <- call (scm_GetUserNameByID s (models.RemoteIdentity.RemoteID remote))
                (EvGetUserNameByID (models.RemoteIdentity.RemoteID remote)) ;;
      userName <- try r ;;
      gitUserNamesOf s provider rest (gitUserNames ++ [userName])%list
  end.

(** The handler.  Logging is left out; the request deadline shows only as
    errors of the provider calls.  After a failed CreateRepository the
    source assigns [existing[oldgrp.Name]] to [repo] and returns the error
    at once, so the assignment has no effect. *)
Definition PatchGroup (db : Database) (c : echoContext.t) : M outcome :=
  id <- try (parseUint (echoContext.Param c "gid")) ;;
  ngrp <- try (echoContext.Bind c) ;;
  if Teacher <? UpdateGroupRequest.Status ngrp then
    exit (Failed (HTTPError StatusBadRequest "invalid payload"))
  else
  let user := echoContext.user c in
  if match models.User.IsAdmin user with
     | None => true
     | Some isAdmin => negb isAdmin
     end
  then exit (NoContent StatusForbidden)
  else
  r <- call (db_GetGroup db true id) (EvGetGroup true id) ;;
  oldgrp <- match r with
            | Ok g => ret g
            | Err ErrRecordNotFound =>
                exit (Failed (HTTPError StatusNotFound "group not found"))
            | Err e => exit (Failed e)
            end ;;
  let users := models.Group.Users oldgrp in
  r <- call (db_GetCourse db (models.Group.CourseID oldgrp))
            (EvGetCourse (models.Group.CourseID oldgrp)) ;;
  course <- match r with
            | Ok co => ret co
            | Err ErrRecordNotFound =>
                exit (Failed (HTTPError StatusNotFound "course not found"))
            | Err e => exit (Failed e)
            end ;;
  s <- try (getSCM c (models.Course.Provider course)) ;;
  r <- call (scm_GetDirectory s (models.Course.DirectoryID course))
            (EvGetDirectory (models.Course.DirectoryID course)) ;;
  dir <- try r ;;
  r <- call (scm_GetRepositories s dir) (EvGetRepositories dir) ;;
  repos <- try r ;;
  let existing := existingOf repos in
  repo <- match existing !! models.Group.Name oldgrp with
          | Some repo => ret repo
          | None =>
              let opt := scm.CreateRepositoryOptions.mk
                           dir (models.Group.Name oldgrp) true in
              r <- call (scm_CreateRepository s opt) (EvCreateRepository opt) ;;
              try r
          end ;;
  let dbRepo := models.Repository.mk
                  (models.Course.DirectoryID course)
                  (scm.Repository.ID repo)
                  (scm.Repository.WebURL repo)
                  models.UserRepo
                  0
                  (models.Group.ID oldgrp) in
  r <- call (db_CreateRepository db dbRepo) (EvDbCreateRepository dbRepo) ;;
  tryErr r ;;;
  r <- call (db_UpdateGroupStatus db (models.Group.ID oldgrp)
                                  (UpdateGroupRequest.Status ngrp))
            (EvUpdateGroupStatus (models.Group.ID oldgrp)
                                 (UpdateGroupRequest.Status ngrp)) ;;
  tryErr r ;;;
  gitUserNames <- gitUserNamesOf s (models.Course.Provider course) users [] ;;
  let topt := scm.CreateTeamOptions.mk
                (scm.Directory.mk 0 (scm.Directory.Path dir))
                (models.Group.Name oldgrp)
                gitUserNames in
  r <- call (scm_CreateTeam s topt) (EvCreateTeam topt) ;;
  team <- try r ;;
  let aopt := scm.AddTeamRepoOptions.mk
                (scm.Team.ID team)
                (scm.Repository.Owner repo)
                (scm.Repository.Path repo) in
  r <- call (scm_AddTeamRepo s aopt) (EvAddTeamRepo aopt) ;;
  tryErr r ;;;
  ret (NoContent StatusOK).

(** *** DeleteGroup *)

Definition DeleteGroup (db : Database) (c : echoContext.t) : M outcome :=
  gid <- try (parseUint (echoContext.Param c "gid")) ;;
  r <- call (db_GetGroup db false gid) (EvGetGroup false gid) ;;
  group <- match r with
           | Ok g => ret g
           | Err ErrRecordNotFound =>
               exit (Failed (HTTPError StatusNotFound "group not found"))
           | Err e => exit (Failed e)
           end ;;
  if Rejected <? models.Group.Status group then
    exit (Failed (HTTPError StatusForbidden "accepted group cannot be deleted"))
  else
  r <- call (db_DeleteGroup db gid) (EvDeleteGroup gid) ;;
  match r with
  | Some _ => ret ReturnNil
  | None => ret (NoContent StatusOK)
  end.

End Handlers.

Arguments Database W : clear implicits.
Arguments SCM W : clear implicits.

(** ** Vocabulary of the properties *)

Definition hasPath (path : string) (repo : scm.Repository.t) : bool :=
  String.eqb (scm.Repository.Path repo) path.

(** The last repository of a listing at a path. *)
Definition lastAt (path : string) (repos : list scm.Repository.t)
  : option scm.Repository.t :=
  List.find (hasPath path) (rev repos).

(** A member has a linked entry for a provider. *)
Definition linked (provider : string) (user : models.User.t) : bool :=
  existsb (fun v => String.eqb (models.RemoteIdentity.Provider v) provider)
          (models.User.RemoteIdentities user).

(** The error taxonomy: the class of an error value by its HTTP status or
    gRPC code; the store's not-found sentinel counts as NotFound. *)
Inductive Kind :=
| KAborted | KUnauthenticated | KPermissionDenied | KNotFound
| KInvalidArgument | KOther.

Definition kindOf (e : error) : Kind :=
  match e with
  | HTTPError code _ =>
      if code =? StatusBadRequest then KInvalidArgument
      else if code =? StatusForbidden then KPermissionDenied
      else if code =? StatusNotFound then KNotFound
      else KOther
  | StatusError Aborted _ => KAborted
  | StatusError Unauthenticated _ => KUnauthenticated
  | StatusError PermissionDenied _ => KPermissionDenied
  | StatusError NotFound _ => KNotFound
  | ErrRecordNotFound => KNotFound
  | NumError _ _ _ | OtherError _ => KOther
  end.

(** A group with another approval status. *)
Definition setStatus (status : N) (g : models.Group.t) : models.Group.t :=
  models.Group.mk (models.Group.ID g) (models.Group.Name g) status
                  (models.Group.CourseID g) (models.Group.Users g).

(** A store that reports every group at the given approval status and is
    otherwise the same. *)
Definition withStatus {W} (status : N) (db : Database W) : Database W := {|
  db_GetUser := db_GetUser db;
  db_GetGroup := fun withRemoteIDs id w =>
    match db_GetGroup db withRemoteIDs id w with
    | (Ok g, w1) => (Ok (setStatus status g), w1)
    | (Err e, w1) => (Err e, w1)
    end;
  db_GetCourse := db_GetCourse db;
  db_CreateRepository := db_CreateRepository db;
  db_UpdateGroupStatus := db_UpdateGroupStatus db;
  db_DeleteGroup := db_DeleteGroup db
|}.

(** The log entry of a group lookup, with the status replaced. *)
Definition relabel (status : N) (ev : Event) : Event :=
  match ev with
  | EvGetGroup withRemoteIDs id (Ok g) =>
      EvGetGroup withRemoteIDs id (Ok (setStatus status g))
  | _ => ev
  end.

(** The caller token values a request carries: the values under ["user"],
    none when the request has no metadata at all. *)
Definition tokenValues (ctx : grpcContext.t) : list string :=
  match grpcContext.metadata ctx with
  | None => []
  | Some md => MD_Get md "user"
  end.

(** ** In-memory collaborators *)

(** Modelled from the spec: the store behind [database.Database] and the
    provider behind [scm.SCM] are not among the sources.  The store keeps
    one row per id, answers a missing row with the not-found sentinel and
    enforces the uniqueness constraint on (directory, remote repository
    id) of repository records.  The provider lists the repositories of a
    directory, keeps paths unique within a directory and assigns fresh
    ids to what it creates. *)
Module Sim.

(** A row of the groups table; the key is the group id. *)
Record GroupRow := mkGroupRow {
  row_Name : string;
  row_Status : N;
  row_CourseID : N;
  row_Users : list models.User.t
}.

(** A row of the courses table; the key is the course id. *)
Record CourseRow := mkCourseRow {
  row_Provider : string;
  row_DirectoryID : N
}.

Record World := mkWorld {
  users : gmap N models.User.t;
  groups : gmap N GroupRow;
  courses : gmap N CourseRow;
  repositories : list models.Repository.t;
  directories : gmap N string;
  remote : gmap N (list scm.Repository.t);
  usernames : gmap N string;
  teams : gmap N (scm.CreateTeamOptions.t * list string);
  nextID : N
}.

Definition ErrUnique : error :=
  OtherError "UNIQUE constraint failed: repositories.directory_id, repositories.repository_id".

Definition GetUser (id : N) (w : World) : res models.User.t * World :=
  match users w !! id with
  | Some u => (Ok u, w)
  | None => (Err ErrRecordNotFound, w)
  end.

Definition groupOf (id : N) (row : GroupRow) : models.Group.t :=
  models.Group.mk id (row_Name row) (row_Status row) (row_CourseID row)
                  (row_Users row).

Definition GetGroup (withRemoteIDs : bool) (id : N) (w : World)
  : res models.Group.t * World :=
  match groups w !! id with
  | Some row => (Ok (groupOf id row), w)
  | None => (Err ErrRecordNotFound, w)
  end.

Definition GetCourse (id : N) (w : World) : res models.Course.t * World :=
  match courses w !! id with
  | Some row => (Ok (models.Course.mk id (row_Provider row) (row_DirectoryID row)), w)
  | None => (Err ErrRecordNotFound, w)
  end.

Definition sameKey (a b : models.Repository.t) : bool :=
  (models.Repository.DirectoryID a =? models.Repository.DirectoryID b)
  && (models.Repository.RepositoryID a =? models.Repository.RepositoryID b).

(** Modelled from the spec: the store's CreateRepository is not among the
    sources.  A second insert with the same (directory, remote repository
    id) fails on the uniqueness constraint instead of duplicating. *)
Definition CreateRepositoryRecord (record : models.Repository.t) (w : World)
  : option error * World :=
  if existsb (sameKey record) (repositories w) then (Some ErrUnique, w)
  else (None,
        mkWorld (users w) (groups w) (courses w)
                (repositories w ++ [record])%list
                (directories w) (remote w) (usernames w) (teams w) (nextID w)).

Definition UpdateGroupStatus (gid status : N) (w : World)
  : option error * World :=
  match groups w !! gid with
  | Some row =>
      (None,
       mkWorld (users w)
               (<[gid := mkGroupRow (row_Name row) status (row_CourseID row)
                                    (row_Users row)]> (groups w))
               (courses w) (repositories w) (directories w) (remote w)
               (usernames w) (teams w) (nextID w))
  | None => (Some ErrRecordNotFound, w)
  end.

Definition DeleteGroup (gid : N) (w : World) : option error * World :=
  match groups w !! gid with
  | Some _ =>
      (None,
       mkWorld (users w) (delete gid (groups w)) (courses w) (repositories w)
               (directories w) (remote w) (usernames w) (teams w) (nextID w))
  | None => (Some ErrRecordNotFound, w)
  end.

Definition db : Database World := {|
  db_GetUser := GetUser;
  db_GetGroup := GetGroup;
  db_GetCourse := GetCourse;
  db_CreateRepository := CreateRepositoryRecord;
  db_UpdateGroupStatus := UpdateGroupStatus;
  db_DeleteGroup := DeleteGroup
|}.

Definition GetDirectory (id : N) (w : World) : res scm.Directory.t * World :=
  match directories w !! id with
  | Some path => (Ok (scm.Directory.mk id path), w)
  | None => (Err (OtherError "directory not found"), w)
  end.

Definition listing (d : N) (w : World) : list scm.Repository.t :=
  default [] (remote w !! d).

Definition GetRepositories (dir : scm.Directory.t) (w : World)
  : res (list scm.Repository.t) * World :=
  (Ok (listing (scm.Directory.ID dir) w), w).

Definition CreateRepository (opt : scm.CreateRepositoryOptions.t) (w : World)
  : res scm.Repository.t * World :=
  let dir := scm.CreateRepositoryOptions.Directory opt in
  let path := scm.CreateRepositoryOptions.Path opt in
  let repos := listing (scm.Directory.ID dir) w in
  if existsb (hasPath path) repos then
    (Err (OtherError "repository already exists"), w)
  else
    let repo := scm.Repository.mk (nextID w) path
                  (String.append (scm.Directory.Path dir) (String.append "/" path))
                  (scm.Directory.Path dir) in
    (Ok repo,
     mkWorld (users w) (groups w) (courses w) (repositories w) (directories w)
             (<[scm.Directory.ID dir := (repos ++ [repo])%list]> (remote w))
             (usernames w) (teams w) (nextID w + 1)).

Definition GetUserNameByID (id : N) (w : World) : res string * World :=
  match usernames w !! id with
  | Some name => (Ok name, w)
  | None => (Err (OtherError "user not found"), w)
  end.

Definition CreateTeam (opt : scm.CreateTeamOptions.t) (w : World)
  : res scm.Team.t * World :=
  (Ok (scm.Team.mk (nextID w)),
   mkWorld (users w) (groups w) (courses w) (repositories w) (directories w)
           (remote w) (usernames w) (<[nextID w := (opt, [])]> (teams w))
           (nextID w + 1)).

Definition AddTeamRepo (opt : scm.AddTeamRepoOptions.t) (w : World)
  : option error * World :=
  match teams w !! scm.AddTeamRepoOptions.TeamID opt with
  | Some (topt, attached) =>
      (None,
       mkWorld (users w) (groups w) (courses w) (repositories w) (directories w)
               (remote w) (usernames w)
               (<[scm.AddTeamRepoOptions.TeamID opt :=
                    (topt, (attached ++ [scm.AddTeamRepoOptions.Repo opt])%list)]>
                  (teams w))
               (nextID w))
  | None => (Some (OtherError "team not found"), w)
  end.

Definition client : SCM World := {|
  scm_GetDirectory := GetDirectory;
  scm_GetRepositories := GetRepositories;
  scm_CreateRepository := CreateRepository;
  scm_GetUserNameByID := GetUserNameByID;
  scm_CreateTeam := CreateTeam;
  scm_AddTeamRepo := AddTeamRepo
|}.

(** The status constants, in the order of the enumeration. *)
Definition Pending : N := 0.
Definition Rejected : N := 1.
Definition Approved : N := 2.
Definition Teacher : N := 3.

(** [parseUint] of package web reads a decimal identifier. *)
Definition parseUint (s : string) : res N :=
  match ParseUint s with
  | Ok n => Ok n
  | Err _ => Err (HTTPError StatusBadRequest "invalid identifier")
  end.

(** One provider is registered, under the name ["P"]. *)
Definition getSCM (c : echoContext.t) (provider : string) : res (SCM World) :=
  if String.eqb provider "P" then Ok client
  else Err (HTTPError StatusBadRequest "provider not registered").

(** The end-to-end scenario of the spec: group "g42" with members u1
    (provider id 7) and u2 (provider id 9), course with provider "P" and
    directory "org/course", no remote repository yet. *)
Definition u1 : models.User.t :=
  models.User.mk 1 None [models.RemoteIdentity.mk "P" 7 "token1"].
Definition u2 : models.User.t :=
  models.User.mk 2 None [models.RemoteIdentity.mk "P" 9 "token2"].
Definition admin : models.User.t :=
  models.User.mk 3 (Some true) [models.RemoteIdentity.mk "P" 3 "token3"].

Definition world0 : World := {|
  users := {[ 1 := u1; 2 := u2; 3 := admin ]};
  groups := {[ 42 := mkGroupRow "g42" Pending 5 [u1; u2] ]};
  courses := {[ 5 := mkCourseRow "P" 11 ]};
  repositories := [];
  directories := {[ 11 := "org/course" ]};
  remote := ∅;
  usernames := {[ 7 := "u1-handle"; 9 := "u2-handle" ]};
  teams := ∅;
  nextID := 100
|}.

Definition request (gid : string) (status : N) : echoContext.t :=
  echoContext.mk (fun _ => gid) (Ok (UpdateGroupRequest.mk status)) admin.

Definition setGroups (g : gmap N GroupRow) (w : World) : World :=
  mkWorld (users w) g (courses w) (repositories w) (directories w) (remote w)
          (usernames w) (teams w) (nextID w).




(** The same scenario with the group already at status [Teacher]. *)
Definition worldTeacher : World :=
  setGroups {[ 42 := mkGroupRow "g42" Teacher 5 [u1; u2] ]} world0.

(** The same scenario with a member linked to another provider only. *)
Definition u3 : models.User.t :=
  models.User.mk 4 None [models.RemoteIdentity.mk "Q" 8 "token4"].

Definition worldUnlinked : World :=
  setGroups {[ 42 := mkGroupRow "g42" Pending 5 [u1; u3] ]} world0.

(** A provider in an outage: it answers reads and refuses to create. *)
Definition outage : SCM World := {|
  scm_GetDirectory := GetDirectory;
  scm_GetRepositories := GetRepositories;
  scm_CreateRepository :=
    fun _ w => (Err (OtherError "provider unavailable"), w);
  scm_GetUserNameByID := GetUserNameByID;
  scm_CreateTeam := fun _ w => (Err (OtherError "provider unavailable"), w);
  scm_AddTeamRepo := fun _ w => (Some (OtherError "provider unavailable"), w)
|}.

Definition getOutage (c : echoContext.t) (provider : string) : res (SCM World) :=
  Ok outage.

(** A store that answers reads and refuses to write. *)
Definition locked : Database World := {|
  db_GetUser := GetUser;
  db_GetGroup := GetGroup;
  db_GetCourse := GetCourse;
  db_CreateRepository := fun _ w => (Some (OtherError "database is locked"), w);
  db_UpdateGroupStatus := fun _ _ w => (Some (OtherError "database is locked"), w);
  db_DeleteGroup := fun _ w => (Some (OtherError "database is locked"), w)
|}.

(** Request contexts of the identity resolver. *)
Definition noMetadata : grpcContext.t := grpcContext.mk None.

Definition withUser (values : list string) : grpcContext.t :=
  grpcContext.mk (Some {[ "user" := values ]}).

End Sim.

Definition simPatch (c : echoContext.t) (w : Sim.World)
  : outcome * Sim.World * list Event :=
  run (PatchGroup Sim.Teacher Sim.parseUint Sim.getSCM Sim.db c) w.

Definition simUser (ctx : grpcContext.t) (w : Sim.World)
  : res models.User.t * Sim.World * list Event :=
  getCurrentUser ctx Sim.db w.

(** The runs of the scenarios. *)
Definition runFresh := simPatch (Sim.request "42" 2) Sim.world0.
Definition runUnlinked := simPatch (Sim.request "42" 2) Sim.worldUnlinked.
Definition runTeacher := simPatch (Sim.request "42" 3) Sim.worldTeacher.
Definition runOutage :=
  run (PatchGroup Sim.Teacher Sim.parseUint Sim.getOutage Sim.db
                  (Sim.request "42" 2)) Sim.world0.

Definition g42 (status : N) (members : list models.User.t) : models.Group.t :=
  models.Group.mk 42 "g42" status 5 members.
Definition course5 : models.Course.t := models.Course.mk 5 "P" 11.
Definition dir11 : scm.Directory.t := scm.Directory.mk 11 "org/course".

(** ** Further vocabulary of the handlers *)

(** The error a web handler returns for a failed lookup: HTTP 404 with
    the given message for the store's not-found sentinel, any other
    error as it is. *)
Definition notFoundAs (message : string) (e : error) : error :=
  match e with
  | ErrRecordNotFound => HTTPError StatusNotFound message
  | _ => e
  end.

(** The error of a failed provider call or store write, if the entry is
    one. *)
Definition failure (ev : Event) : option error :=
  match ev with
  | EvDbCreateRepository _ r | EvUpdateGroupStatus _ _ r | EvAddTeamRepo _ r => r
  | EvGetDirectory _ (Err e) | EvGetRepositories _ (Err e)
  | EvCreateRepository _ (Err e) | EvGetUserNameByID _ (Err e)
  | EvCreateTeam _ (Err e) => Some e
  | _ => None
  end.

(** The method a log entry is a call of. *)
Inductive Method :=
| MGetUser | MGetGroup | MGetCourse | MDbCreateRepository
| MUpdateGroupStatus | MDeleteGroup | MGetDirectory | MGetRepositories
| MCreateRepository | MGetUserNameByID | MCreateTeam | MAddTeamRepo.

Definition methodOf (ev : Event) : Method :=
  match ev with
  | EvGetUser _ _ => MGetUser
  | EvGetGroup _ _ _ => MGetGroup
  | EvGetCourse _ _ => MGetCourse
  | EvDbCreateRepository _ _ => MDbCreateRepository
  | EvUpdateGroupStatus _ _ _ => MUpdateGroupStatus
  | EvDeleteGroup _ _ => MDeleteGroup
  | EvGetDirectory _ _ => MGetDirectory
  | EvGetRepositories _ _ => MGetRepositories
  | EvCreateRepository _ _ => MCreateRepository
  | EvGetUserNameByID _ _ => MGetUserNameByID
  | EvCreateTeam _ _ => MCreateTeam
  | EvAddTeamRepo _ _ => MAddTeamRepo
  end.

(** The log entries of successful user name lookups, one per resolved
    pair of provider user id and user name. *)
Definition lookupsOf (resolved : list (N * string)) : list Event :=
  map (fun p => EvGetUserNameByID (fst p) (Ok (snd p))) resolved.

(** A member's linked entry for the provider carries the given provider
    user id. *)
Definition remoteIDIs (provider : string) (user : models.User.t) (id : N) : Prop :=
  exists remote, getRemoteIDFor user provider = Ok remote
                 /\ models.RemoteIdentity.RemoteID remote = id.

(** ** GetGroup (package web) *)

(** The response [c.JSONPretty(code, group, indent)] writes. *)
Inductive jsonReply :=
| JSONPretty (code : N) (group : models.Group.t) (indent : string).

(** The tab character. *)
Definition tab : string := String (ascii_of_N 9) EmptyString.

Section GetHandlers.

Context {W : Type}.
Variable parseUint : string -> res N.

Notation "x <- m ;; k" := (bind m (fun x => k))
  (at level 100, m at next level, right associativity).

(** The handler leaves with an error or goes on to write the group. *)
Definition GetGroup (db : Database W) (c : echoContext.t) : M (W:=W) jsonReply :=
  gid <- try (parseUint (echoContext.Param c "gid")) ;;
  r <- call (db_GetGroup db false gid) (EvGetGroup false gid) ;;
  group <- match r with
           | Ok g => ret g
           | Err ErrRecordNotFound =>
               exit (Failed (HTTPError StatusNotFound "group not found"))
           | Err e => exit (Failed e)
           end ;;
  ret (JSONPretty StatusOK group tab).

End GetHandlers.

(** ** getSCM (package grpc_service) *)

Module grpc_service.

Section Resolver.

Context {W : Type}.

(** The loop over the user's remote identities: the first identity of
    the provider decides. *)
Fixpoint scanIdentities (scms : gmap string (SCM W)) (provider : string)
  (identities : list models.RemoteIdentity.t) : res (SCM W) :=
  match identities with
  | [] => Err (StatusError NotFound "No SCM found")
  | identity :: rest =>
      if String.eqb (models.RemoteIdentity.Provider identity) provider then
        match scms !! models.RemoteIdentity.AccessToken identity with
        | None => Err (StatusError PermissionDenied "Invalid token")
        | Some s => Ok s
        end
      else scanIdentities scms provider rest
  end.

Definition getSCM (ctx : grpcContext.t) (scms : gmap string (SCM W))
  (db : Database W) (provider : string) (w : W)
  : res (SCM W) * W * list Event :=
  match getCurrentUser ctx db w with
  | (Err err, w1, t) => (Err err, w1, t)
  | (Ok user, w1, t) =>
      (scanIdentities scms provider (models.User.RemoteIdentities user), w1, t)
  end.

End Resolver.

End grpc_service.

(** The first remote identity of a user for a provider. *)
Definition firstIdentity (provider : string) (user : models.User.t)
  : option models.RemoteIdentity.t :=
  List.find (fun v => String.eqb (models.RemoteIdentity.Provider v) provider)
            (models.User.RemoteIdentities user).

(** ** Package assignments *)

Module pb.

(** [pb.Assignment] with the fields the parser sets.  [B] stands for
    [pb.GradingBenchmark], whose declaration is not among the sources. *)
Module Assignment.
Record t (B : Type) := mk {
  ID : N;
  CourseID : N;
  Name : string;
  ScriptFile : string;
  Deadline : string;
  AutoApprove : bool;
  Order : N;
  IsGroupLab : bool;
  ScoreLimit : N;
  Reviewers : N;
  ContainerTimeout : N;
  GradingBenchmarks : list B
}.
Arguments mk {B}.
Arguments ID {B}.
Arguments CourseID {B}.
Arguments Name {B}.
Arguments ScriptFile {B}.
Arguments Deadline {B}.
Arguments AutoApprove {B}.
Arguments Order {B}.
Arguments IsGroupLab {B}.
Arguments ScoreLimit {B}.
Arguments Reviewers {B}.
Arguments ContainerTimeout {B}.
Arguments GradingBenchmarks {B}.
End Assignment.

End pb.

Module assignments.

Definition target : string := "assignment.yml".
Definition targetYaml : string := "assignment.yaml".
Definition criteriaFile : string := "criteria.json".
Definition scriptFile : string := "run.sh".
Definition scriptFolder : string := "scripts".
Definition dockerfile : string := "Dockerfile".
Definition defaultAutoApproveScoreLimit : N := 80.

(** What the 'assignment.yml' file is parsed into. *)
Record assignmentData := mkData {
  AssignmentID : N;
  Deadline : string;
  AutoApprove : bool;
  ScoreLimit : N;
  IsGroupLab : bool;
  Reviewers : N;
  ContainerTimeout : N;
  SkipTests : bool
}.

(** The errors of the package: one passed on as it is, or one made by
    [fmt.Errorf] from a format and its arguments. *)
Inductive parseError :=
| Raw (err : error)
| CouldNotRead (filename : string) (err : error)
    (* could not to read file %q: %w *)
| CouldNotUnmarshalCriteria (err : error)
    (* could not unmarshal criteria.json: %s *)
| NoAssignmentForBenchmark (assignmentName : string)
    (* could not find assignment %s for benchmark in %q *)
| NoAssignmentForScript (assignmentName : string)
    (* could not find assignment %s for script file *)
| ErrorUnmarshalling (err : error).
    (* error unmarshalling assignment: %w *)

(** The conversion [uint32(n)] of an unsigned integer. *)
Definition uint32 (n : N) : N := n mod 2 ^ 32.

(** A file or directory that [filepath.Walk] visits. *)
Module Entry.
Record t := mk { path : string; IsDir : bool }.
End Entry.

Section Parser.

Context {B : Type}.

(** The environment of the parser: the file system and the decoders of
    the libraries.  [yamlUnmarshal] and [jsonUnmarshal] decode into a
    zero value; [Walk] lists what [filepath.Walk] visits under a root, in
    its order, every entry with its file information. *)
Variable ReadFile : string -> res string.
Variable yamlUnmarshal : string -> res assignmentData.
Variable jsonUnmarshal : string -> res (list B).
Variable Base : string -> string.
Variable Dir : string -> string.
Variable Stat : string -> option error.
Variable IsNotExist : option error -> bool.
Variable Walk : string -> list Entry.t.

(** Package time and the layout [pb.TimeLayout]. *)
Variable Time : Type.
Variable Parse : string -> string -> res Time.
Variable Format : Time -> string -> string.
Variable TimeLayout : string.

Abbreviation Assignment := (pb.Assignment.t B).

(** The slice [[]*pb.Assignment] is a list; an element's position stands
    for its pointer, the pointers of the slice being distinct. *)
Fixpoint findFrom (assignments : list Assignment) (name : string)
  (i : nat) (found : option nat) : option nat :=
  match assignments with
  | [] => found
  | assignment :: rest =>
      findFrom rest name (S i)
        (if String.eqb (pb.Assignment.Name assignment) name then Some i
         else found)
  end.

Definition findAssignmentByName (assignments : list Assignment)
  (name : string) : option nat :=
  findFrom assignments name 0%nat None.

(** [assignment.ScriptFile = contents] *)
Definition setScriptFile (contents : string) (a : Assignment) : Assignment :=
  pb.Assignment.mk (pb.Assignment.ID a) (pb.Assignment.CourseID a)
    (pb.Assignment.Name a) contents (pb.Assignment.Deadline a)
    (pb.Assignment.AutoApprove a) (pb.Assignment.Order a)
    (pb.Assignment.IsGroupLab a) (pb.Assignment.ScoreLimit a)
    (pb.Assignment.Reviewers a) (pb.Assignment.ContainerTimeout a)
    (pb.Assignment.GradingBenchmarks a).

(** [assignment.GradingBenchmarks = benchmarks] *)
Definition setGradingBenchmarks (benchmarks : list B) (a : Assignment)
  : Assignment :=
  pb.Assignment.mk (pb.Assignment.ID a) (pb.Assignment.CourseID a)
    (pb.Assignment.Name a) (pb.Assignment.ScriptFile a)
    (pb.Assignment.Deadline a) (pb.Assignment.AutoApprove a)
    (pb.Assignment.Order a) (pb.Assignment.IsGroupLab a)
    (pb.Assignment.ScoreLimit a) (pb.Assignment.Reviewers a)
    (pb.Assignment.ContainerTimeout a) benchmarks.

Definition acceptedLayouts : list string := [
  "2006-1-2T15:04:05";
  "2006-1-2 15:04:05";
  "2006-1-2T15:04";
  "2006-1-2 15:04";
  "2006-1-2T1504";
  "2006-1-2 1504";
  "2006-1-2T15";
  "2006-1-2 15";
  "2006-1-2 3pm";
  "2006-1-2 3:04pm";
  "2006-1-2 3:04:05pm";
  "2-1-2006T15:04:05";
  "2-1-2006 15:04:05";
  "2-1-2006T15:04";
  "2-1-2006 15:04";
  "2-1-2006T1504";
  "2-1-2006 1504";
  "2-1-2006T15";
  "2-1-2006 15";
  "2-1-2006 3pm";
  "2-1-2006 3:04pm";
  "2-1-2006 3:04:05pm"
].

(** The loop of [FixDeadline] over the layouts that are left. *)
Fixpoint fixWith (layouts : list string) (in_ : string) : string :=
  match layouts with
  | [] => String.append "Invalid date format: " in_
  | layout :: rest =>
      match Parse layout in_ with
      | Err _ => fixWith rest in_
      | Ok t => Format t TimeLayout
      end
  end.

Definition FixDeadline (in_ : string) : string :=
  fixWith acceptedLayouts in_.

Definition updateCriteriaFromFile (path filename assignmentName : string)
  (assignments : list Assignment) : parseError + list Assignment :=
  match ReadFile path with
  | Err err => inl (CouldNotRead filename err)
  | Ok criteria =>
      match jsonUnmarshal criteria with
      | Err err => inl (CouldNotUnmarshalCriteria err)
      | Ok benchmarks =>
          match findAssignmentByName assignments assignmentName with
          | None => inl (NoAssignmentForBenchmark assignmentName)
          | Some i => inr (alter (setGradingBenchmarks benchmarks) i assignments)
          end
      end
  end.

Definition readScriptFile (path filename assignmentName : string)
  (assignments : list Assignment) : parseError + (string * list Assignment) :=
  match ReadFile path with
  | Err err => inl (Raw err)
  | Ok contents =>
      if negb (String.eqb assignmentName scriptFolder) then
        match findAssignmentByName assignments assignmentName with
        | None => inl (NoAssignmentForScript assignmentName)
        | Some i => inr ("", alter (setScriptFile contents) i assignments)
        end
      else inr (contents, assignments)
  end.

Definition readAssignmentFile (path filename : string) (courseID : N)
  : parseError + Assignment :=
  match ReadFile path with
  | Err err => inl (CouldNotRead filename err)
  | Ok source =>
      match yamlUnmarshal source with
      | Err err => inl (ErrorUnmarshalling err)
      | Ok newAssignment =>
          let scoreLimit :=
            if ScoreLimit newAssignment <? 1 then defaultAutoApproveScoreLimit
            else ScoreLimit newAssignment in
          inr (pb.Assignment.mk
                 0
                 courseID
                 (Base (Dir path))
                 ""
                 (FixDeadline (Deadline newAssignment))
                 (AutoApprove newAssignment)
                 (uint32 (AssignmentID newAssignment))
                 (IsGroupLab newAssignment)
                 (uint32 scoreLimit)
                 (uint32 (Reviewers newAssignment))
                 (uint32 (ContainerTimeout newAssignment))
                 [])
      end
  end.

(** The variables the walk function of [parseAssignments] closes over. *)
Record walkState := mkState {
  st_assignments : list Assignment;
  st_defaultScript : string;
  st_courseDockerfile : string
}.

(** The walk function, called for one entry. *)
Definition visit (courseID : N) (st : walkState) (e : Entry.t)
  : parseError + walkState :=
  let path := Entry.path e in
  let assignmentName := Base (Dir path) in
  if negb (Entry.IsDir e) then
    let filename := Base path in
    if String.eqb filename target || String.eqb filename targetYaml then
      match readAssignmentFile path filename courseID with
      | inl err => inl err
      | inr assignment =>
          inr (mkState (st_assignments st ++ [assignment])%list
                       (st_defaultScript st) (st_courseDockerfile st))
      end
    else if String.eqb filename criteriaFile then
      match updateCriteriaFromFile path filename assignmentName
              (st_assignments st) with
      | inl err => inl err
      | inr assignments =>
          inr (mkState assignments (st_defaultScript st)
                       (st_courseDockerfile st))
      end
    else if String.eqb filename scriptFile then
      match readScriptFile path filename assignmentName (st_assignments st) with
      | inl err => inl err
      | inr (script, assignments) =>
          inr (mkState assignments script (st_courseDockerfile st))
      end
    else if String.eqb filename dockerfile then
      match ReadFile path with
      | Err err => inl (Raw err)
      | Ok contents =>
          inr (mkState (st_assignments st) (st_defaultScript st) contents)
      end
    else inr st
  else inr st.

(** [filepath.Walk] stops at the first error of the walk function. *)
Fixpoint walkFrom (courseID : N) (st : walkState) (entries : list Entry.t)
  : parseError + walkState :=
  match entries with
  | [] => inr st
  | e :: rest =>
      match visit courseID st e with
      | inl err => inl err
      | inr st1 => walkFrom courseID st1 rest
      end
  end.

(** The last loop of [parseAssignments]. *)
Definition withDefaultScript (defaultScript : string)
  (assignments : list Assignment) : list Assignment :=
  map (fun assignment =>
         if String.eqb (pb.Assignment.ScriptFile assignment) "" then
           setScriptFile defaultScript assignment
         else assignment)
      assignments.

Definition parseAssignments (dir : string) (courseID : N)
  : parseError + (list Assignment * string) :=
  let err := Stat dir in
  if IsNotExist err then
    match err with
    | Some e => inl (Raw e)
    | None => inr ([], "")
    end
  else
    match walkFrom courseID (mkState [] "" "") (Walk dir) with
    | inl err => inl err
    | inr st =>
        inr (if negb (String.eqb (st_defaultScript st) "") then
               withDefaultScript (st_defaultScript st) (st_assignments st)
             else st_assignments st,
             st_courseDockerfile st)
    end.

(** *** Vocabulary of the properties of the parser *)

(** A visited entry is a file of the given name. *)
Definition isFile (name : string) (e : Entry.t) : bool :=
  negb (Entry.IsDir e) && String.eqb (Base (Entry.path e)) name.

(** A visited entry is an assignment file. *)
Definition isAssignmentFile (e : Entry.t) : bool :=
  isFile target e || isFile targetYaml e.

(** The name of the folder an entry lies in. *)
Definition folderOf (e : Entry.t) : string := Base (Dir (Entry.path e)).

(** An assignment has no script, or some visited entry is a 'run.sh' in
    the folder of its name. *)
Definition ownScript (visited : list Entry.t) (a : Assignment) : Prop :=
  pb.Assignment.ScriptFile a = ""
  \/ exists e, In e visited /\ isFile scriptFile e = true
               /\ folderOf e = pb.Assignment.Name a.

(** What identifies an assignment: its id, course and name. *)
Definition identityOf (a : Assignment) : N * N * string :=
  (pb.Assignment.ID a, pb.Assignment.CourseID a, pb.Assignment.Name a).

End Parser.

End assignments.

(** ** Further scenarios of the handlers *)

(** The request of the end-to-end scenario made by member u1, who is no
    administrator. *)
Definition memberRequest : echoContext.t :=
  echoContext.mk (fun _ => "42") (Ok (UpdateGroupRequest.mk 2)) Sim.u1.

Definition runMissing := simPatch (Sim.request "43" 2) Sim.world0.

Definition simDelete (c : echoContext.t) (w : Sim.World)
  : outcome * Sim.World * list Event :=
  run (DeleteGroup Sim.Rejected Sim.parseUint Sim.db c) w.

Definition simGet (c : echoContext.t) (w : Sim.World)
  : (outcome + jsonReply) * Sim.World * list Event :=
  GetGroup Sim.parseUint Sim.db c w.

(** The provider clients registered by access token. *)
Definition scms0 : gmap string (SCM Sim.World) := {[ "token3" := Sim.client ]}.

(** A user with two identities of provider "P": the first under a token
    that is not registered, the second under a registered one. *)
Definition twoLinks : models.User.t :=
  models.User.mk 5 None [models.RemoteIdentity.mk "P" 5 "stale";
                         models.RemoteIdentity.mk "P" 5 "token3"].

Definition worldTwoLinks : Sim.World :=
  Sim.mkWorld {[ 5 := twoLinks; 3 := Sim.admin ]} (Sim.groups Sim.world0)
    (Sim.courses Sim.world0) [] (Sim.directories Sim.world0) ∅
    (Sim.usernames Sim.world0) ∅ 100.

Definition simSCM (ctx : grpcContext.t) (provider : string) (w : Sim.World)
  : res (SCM Sim.World) * Sim.World * list Event :=
  grpc_service.getSCM ctx scms0 Sim.db provider w.



(** The scenario with an unlinked member in which the provider knows no
    user name: the lookup of the linked member u1, who comes first,
    fails. *)
Definition worldNoHandle : Sim.World :=
  Sim.mkWorld (Sim.users Sim.worldUnlinked) (Sim.groups Sim.worldUnlinked)
    (Sim.courses Sim.worldUnlinked) [] (Sim.directories Sim.worldUnlinked)
    ∅ ∅ ∅ 100.

Definition runNoHandle := simPatch (Sim.request "42" 2) worldNoHandle.

(** The scenario with an unlinked member and the provider in an outage. *)
Definition runUnlinkedOutage :=
  run (PatchGroup Sim.Teacher Sim.parseUint Sim.getOutage Sim.db
                  (Sim.request "42" 2)) Sim.worldUnlinked.

(** A store whose GetUser answers with a status error of its own. *)
Definition guarded : Database Sim.World := {|
  db_GetUser := fun _ w => (Err (StatusError Unauthenticated "session expired"), w);
  db_GetGroup := Sim.GetGroup;
  db_GetCourse := Sim.GetCourse;
  db_CreateRepository := Sim.CreateRepositoryRecord;
  db_UpdateGroupStatus := Sim.UpdateGroupStatus;
  db_DeleteGroup := Sim.DeleteGroup
|}.

(** The identity resolver against that store, for a request naming user
    9. *)
Definition runGuarded : res models.User.t * Sim.World * list Event :=
  getCurrentUser (Sim.withUser ["9"]) guarded Sim.world0.

(** ** Course directories for the examples of the parser *)

Module Disk.

(** The last element of a slash-separated path. *)
Fixpoint baseFrom (s seg : string) : string :=
  match s with
  | EmptyString => seg
  | String c rest =>
      if Ascii.eqb c "/" then baseFrom rest ""
      else baseFrom rest (String.append seg (String c ""))
  end.

Definition Base (s : string) : string := baseFrom s "".

(** A slash-separated path without its last element. *)
Fixpoint dirFrom (s consumed dir : string) : string :=
  match s with
  | EmptyString => dir
  | String c rest =>
      if Ascii.eqb c "/" then dirFrom rest (String.append consumed "/") consumed
      else dirFrom rest (String.append consumed (String c "")) dir
  end.

Definition Dir (s : string) : string := dirFrom s "" "".

Definition files : gmap string string := {[
  "labs/Dockerfile" := "FROM golang";
  "labs/lab1/assignment.yml" := "yaml1";
  "labs/lab1/criteria.json" := "json1";
  "labs/lab1/run.sh" := "go test ./lab1";
  "labs/lab2/assignment.yaml" := "yaml2";
  "labs/scripts/run.sh" := "go test ./...";
  "late/lab1/assignment.yml" := "yaml1";
  "late/scripts/run.sh" := "go test ./...";
  "late/zlab/assignment.yml" := "yaml2";
  "late/zlab/run.sh" := "go test ./zlab";
  "stray/lab3/criteria.json" := "json1"
]}.

Definition ReadFile (path : string) : res string :=
  match files !! path with
  | Some contents => Ok contents
  | None => Err (OtherError "no such file or directory")
  end.

Definition file (path : string) : assignments.Entry.t :=
  assignments.Entry.mk path false.

Definition folder (path : string) : assignments.Entry.t :=
  assignments.Entry.mk path true.

Definition Walk (root : string) : list assignments.Entry.t :=
  if String.eqb root "labs" then
    [folder "labs"; file "labs/Dockerfile";
     folder "labs/lab1"; file "labs/lab1/assignment.yml";
     file "labs/lab1/criteria.json"; file "labs/lab1/run.sh";
     folder "labs/lab2"; file "labs/lab2/assignment.yaml";
     folder "labs/scripts"; file "labs/scripts/run.sh"]
  else if String.eqb root "late" then
    [folder "late"; folder "late/lab1"; file "late/lab1/assignment.yml";
     folder "late/scripts"; file "late/scripts/run.sh";
     folder "late/zlab"; file "late/zlab/assignment.yml";
     file "late/zlab/run.sh"]
  else if String.eqb root "stray" then
    [folder "stray"; folder "stray/lab3"; file "stray/lab3/criteria.json"]
  else [].

Definition Stat (name : string) : option error :=
  if String.eqb name "labs" || String.eqb name "late" || String.eqb name "stray"
  then None
  else Some (OtherError "no such file or directory").

Definition IsNotExist (err : option error) : bool :=
  match err with
  | Some _ => true
  | None => false
  end.

Definition data1 : assignments.assignmentData :=
  assignments.mkData 1 "2021-3-4T10:00:00" true 0 false 0 0 false.

Definition data2 : assignments.assignmentData :=
  assignments.mkData 2 "soon" false 90 true 1 0 false.

Definition yamlUnmarshal (source : string) : res assignments.assignmentData :=
  if String.eqb source "yaml1" then Ok data1
  else if String.eqb source "yaml2" then Ok data2
  else Err (OtherError "yaml: unmarshal errors").

Definition jsonUnmarshal (source : string) : res (list string) :=
  if String.eqb source "json1" then Ok ["test coverage"]
  else Err (OtherError "invalid character").

Definition Parse (layout value : string) : res string :=
  if String.eqb layout "2006-1-2T15:04:05"
     && String.eqb value "2021-3-4T10:00:00"
  then Ok "2021-03-04T10:00:00"
  else Err (OtherError "cannot parse").

Definition Format (t layout : string) : string := t.

Definition TimeLayout : string := "2006-01-02T15:04:05".

Definition parse (dir : string)
  : assignments.parseError + (list (pb.Assignment.t string) * string) :=
  assignments.parseAssignments ReadFile yamlUnmarshal jsonUnmarshal Base Dir
    Stat IsNotExist Walk string Parse Format TimeLayout dir 7.

Definition read (path : string)
  : assignments.parseError + pb.Assignment.t string :=
  assignments.readAssignmentFile ReadFile yamlUnmarshal Base Dir
    string Parse Format TimeLayout path "assignment.yml" 7.

Definition resultOf (r : assignments.parseError
                         + (list (pb.Assignment.t string) * string))
  : list (pb.Assignment.t string) :=
  match r with
  | inr (result, _) => result
  | inl _ => []
  end.

Definition dockerfileOf (r : assignments.parseError
                             + (list (pb.Assignment.t string) * string))
  : string :=
  match r with
  | inr (_, df) => df
  | inl _ => ""
  end.

End Disk.

(** * Properties *)

(** Splits the innermost case distinction of a hypothesis. *)
Ltac break H :=
  repeat match type of H with
  | context [match ?x with _ => _ end] =>
      lazymatch x with
      | context [match _ with _ => _ end] => fail
      | _ => destruct x eqn:?
      end
  end.

Ltac unfoldM H :=
  unfold run, bind, call, try, tryErr, ret, exit in H.

(** Symbolic execution of a handler run to each of its exits. *)
Ltac exits H :=
  unfoldM H; break H; simpl in H; simplify_eq.

Section Loops.

Context {W : Type}.

(** ** The lookup table of the listing *)

Lemma find_app {A} (f : A -> bool) (l1 l2 : list A) :
  List.find f (l1 ++ l2) =
  match List.find f l1 with Some x => Some x | None => List.find f l2 end.
Proof.
  induction l1 as [|a l1 IH]; simpl; [reflexivity|].
  destruct (f a); [reflexivity|apply IH].
Qed.

Lemma hasPath_true path repo :
  hasPath path repo = true <-> scm.Repository.Path repo = path.
Proof. unfold hasPath. apply String.eqb_eq. Qed.

Lemma fold_existing_lookup repos (m : gmap string scm.Repository.t) path :
  fold_left (fun existing repo => <[scm.Repository.Path repo := repo]> existing)
            repos m !! path =
  match lastAt path repos with Some repo => Some repo | None => m !! path end.
Proof.
  revert m. induction repos as [|a repos IH]; intros m; [reflexivity|].
  simpl fold_left. rewrite IH. unfold lastAt. simpl rev. rewrite find_app.
  destruct (List.find (hasPath path) (rev repos)); [reflexivity|].
  simpl. destruct (hasPath path a) eqn:Ha.
  - apply hasPath_true in Ha. subst path. apply lookup_insert_eq.
  - apply lookup_insert_ne. intros Heq. apply hasPath_true in Heq. congruence.
Qed.

Lemma existingOf_lookup repos path :
  existingOf repos !! path = lastAt path repos.
Proof.
  unfold existingOf. rewrite fold_existing_lookup.
  destruct (lastAt path repos); [reflexivity|apply lookup_empty].
Qed.



(** ** The loop over the members *)

Lemma getRemoteIDFor_linked user provider :
  linked provider user = false <->
  getRemoteIDFor user provider = Err (HTTPError StatusNotFound "Not Found").
Proof.
  unfold linked, getRemoteIDFor.
  induction (models.User.RemoteIdentities user) as [|v l IH]; simpl.
  - tauto.
  - destruct (String.eqb (models.RemoteIdentity.Provider v) provider); simpl.
    + split; discriminate.
    + exact IH.
Qed.

Lemma gitUserNamesOf_log (s : SCM W) provider users acc w r w1 t :
  gitUserNamesOf s provider users acc w = (r, w1, t) ->
  forall ev, In ev t -> isGetUserNameByID ev = true.
Proof.
  revert acc w r w1 t.
  induction users as [|u users IH]; intros acc w r w1 t H ev Hin.
  - cbn in H. unfold ret in H. simplify_eq. destruct Hin.
  - cbn [gitUserNamesOf] in H. unfoldM H.
    destruct (getRemoteIDFor u provider) as [remote|e].
    + destruct (scm_GetUserNameByID s _ w) as [[name|e] w2] eqn:Hcall.
      * destruct (gitUserNamesOf s provider users _ w2) as [[r2 w3] t3] eqn:Hrec.
        simpl in H. simplify_eq. simpl in Hin.
        destruct Hin as [<-|Hin]; [reflexivity|].
        eapply IH; eauto.
      * simpl in H. simplify_eq. simpl in Hin.
        destruct Hin as [<-|[]]. reflexivity.
    + simpl in H. simplify_eq. destruct Hin.
Qed.

(** The loop runs to its end only when every member is linked; it leaves
    the handler with NotFound at the first member that is not, unless a
    user name lookup failed before. *)
Lemma gitUserNamesOf_result (s : SCM W) provider users acc w r w1 t :
  gitUserNamesOf s provider users acc w = (r, w1, t) ->
  match r with
  | inr _ => forall u, In u users -> linked provider u = true
  | inl o =>
      (o = Failed (HTTPError StatusNotFound "Not Found")
       /\ exists u, In u users /\ linked provider u = false)
      \/ (exists id e, o = Failed e /\ In (EvGetUserNameByID id (Err e)) t)
  end.
Proof.
  revert acc w r w1 t.
  induction users as [|u users IH]; intros acc w r w1 t H.
  - cbn in H. unfold ret in H. simplify_eq. intros u [].
  - cbn [gitUserNamesOf] in H. unfoldM H.
    destruct (getRemoteIDFor u provider) as [remote|e] eqn:Hlink.
    + assert (linked provider u = true) as Hu.
      { destruct (linked provider u) eqn:Hl; [reflexivity|].
        apply getRemoteIDFor_linked in Hl. congruence. }
      destruct (scm_GetUserNameByID s _ w) as [[name|e] w2] eqn:Hcall.
      * destruct (gitUserNamesOf s provider users _ w2) as [[r2 w3] t3] eqn:Hrec.
        simpl in H. simplify_eq. apply IH in Hrec.
        destruct r as [o|names].
        -- destruct Hrec as [[-> (u' & Hin & Hl)]|(id & e & -> & Hin)].
           ++ left. split; [reflexivity|]. exists u'. simpl. tauto.
           ++ right. exists id, e. simpl. tauto.
        -- intros u' [<-|Hin]; auto.
      * simpl in H. simplify_eq. right. eexists _, e. simpl. eauto.
    + simpl in H. simplify_eq. left.
      unfold getRemoteIDFor in Hlink.
      destruct (List.find _ _) eqn:Hf in Hlink; simplify_eq.
      split; [reflexivity|]. exists u. split; [left; reflexivity|].
      apply getRemoteIDFor_linked. unfold getRemoteIDFor. rewrite Hf. reflexivity.
Qed.

Lemma filter_none {A} (f : A -> bool) (l : list A) :
  (forall x, In x l -> f x = false) -> List.filter f l = [].
Proof.
  induction l as [|a l IH]; intros H; simpl; [reflexivity|].
  rewrite (H a) by (left; reflexivity). apply IH. intros x Hx. apply H. right. exact Hx.
Qed.

Lemma gitUserNamesOf_filter (f : Event -> bool) (s : SCM W)
  provider users acc w r w1 t :
  (forall ev, isGetUserNameByID ev = true -> f ev = false) ->
  gitUserNamesOf s provider users acc w = (r, w1, t) ->
  List.filter f t = [].
Proof.
  intros Hf H. apply filter_none. intros ev Hin. apply Hf.
  eapply gitUserNamesOf_log; eauto.
Qed.

Lemma gitUserNamesOf_relabel status (s : SCM W) provider users acc w r w1 t :
  gitUserNamesOf s provider users acc w = (r, w1, t) ->
  map (relabel status) t = t.
Proof.
  intros H. rewrite <- (map_id t) at 2. apply map_ext_in.
  intros ev Hin. apply (gitUserNamesOf_log _ _ _ _ _ _ _ _ H) in Hin.
  destruct ev; try discriminate Hin. reflexivity.
Qed.

End Loops.

(** Case analysis of the membership of an event in a log. *)
Ltac inlog :=
  repeat match goal with
  | H : In _ (_ ++ _) |- _ => apply in_app_or in H
  | H : In _ (_ :: _) |- _ => simpl in H
  | H : In _ [] |- _ => destruct H
  | H : False |- _ => destruct H
  | H : _ \/ _ |- _ => destruct H as [H|H]
  | H : @eq Event _ _ |- _ => first [discriminate H | injection H as ?; subst]
  | Hl : gitUserNamesOf _ _ _ _ _ = (_, _, ?l), H : In ?ev ?l |- _ =>
      apply (gitUserNamesOf_log _ _ _ _ _ _ _ _ Hl) in H; discriminate H
  end.

(** Filters a log for one kind of call, skipping the member loop. *)
Ltac logfilter :=
  simpl;
  repeat match goal with
  | Hl : gitUserNamesOf _ _ _ _ _ = (_, _, ?l) |- context [List.filter ?f (?l ++ _)] =>
      rewrite (List.filter_app f l),
        (gitUserNamesOf_filter f _ _ _ _ _ _ _ _
           ltac:(intros [] ?; simpl in *; congruence) Hl);
      simpl
  | Hl : gitUserNamesOf _ _ _ _ _ = (_, _, ?l) |- context [List.filter ?f ?l] =>
      rewrite (gitUserNamesOf_filter f _ _ _ _ _ _ _ _
                 ltac:(intros [] ?; simpl in *; congruence) Hl);
      simpl
  end.

(** ** More on the loop over the members *)

Section LoopsMore.

Context {W : Type}.

(** A failed user name lookup ends the loop: it is the last entry of the
    loop's log and its error leaves the handler. *)
Lemma gitUserNamesOf_failure (s : SCM W) provider users acc w r w1 t ev e :
  gitUserNamesOf s provider users acc w = (r, w1, t) ->
  In ev t -> failure ev = Some e ->
  r = inl (Failed e) /\ exists pre, t = (pre ++ [ev])%list.
Proof.
  revert acc w r w1 t.
  induction users as [|u users IH]; intros acc w r w1 t H Hin Hf.
  - cbn in H. unfold ret in H. simplify_eq. destruct Hin.
  - cbn [gitUserNamesOf] in H. unfoldM H.
    destruct (getRemoteIDFor u provider) as [remote|e0].
    + destruct (scm_GetUserNameByID s _ w) as [[name|e0] w2] eqn:Hcall.
      * destruct (gitUserNamesOf s provider users _ w2) as [[r2 w3] t3] eqn:Hrec.
        simpl in H. simplify_eq. simpl in Hin.
        destruct Hin as [<-|Hin]; [discriminate Hf|].
        destruct (IH _ _ _ _ _ Hrec Hin Hf) as [-> [pre ->]].
        split; [reflexivity|]. eexists (_ :: pre). reflexivity.
      * simpl in H. simplify_eq. simpl in Hin.
        destruct Hin as [<-|[]]. simpl in Hf. simplify_eq.
        split; [reflexivity|]. exists []. reflexivity.
    + simpl in H. simplify_eq. destruct Hin.
Qed.

(** A loop that runs to its end has looked up every member once, in the
    order of the members, and appended the names in that order. *)
Lemma gitUserNamesOf_resolved (s : SCM W) provider users acc w names w1 t :
  gitUserNamesOf s provider users acc w = (inr names, w1, t) ->
  exists resolved,
    names = (acc ++ map snd resolved)%list
    /\ t = lookupsOf resolved
    /\ Forall2 (fun u p => remoteIDIs provider u (fst p)) users resolved.
Proof.
  revert acc w names w1 t.
  induction users as [|u users IH]; intros acc w names w1 t H.
  - cbn in H. unfold ret in H. simplify_eq. exists [].
    simpl. rewrite app_nil_r. repeat split. constructor.
  - cbn [gitUserNamesOf] in H. unfoldM H.
    destruct (getRemoteIDFor u provider) as [remote|e0] eqn:Hlink;
      [|simpl in H; simplify_eq].
    destruct (scm_GetUserNameByID s _ w) as [[name|e0] w2] eqn:Hcall;
      [|simpl in H; simplify_eq].
    destruct (gitUserNamesOf s provider users _ w2) as [[r2 w3] t3] eqn:Hrec.
    simpl in H. simplify_eq.
    destruct (IH _ _ _ _ _ Hrec) as (resolved & -> & -> & Hall).
    exists ((models.RemoteIdentity.RemoteID remote, name) :: resolved).
    simpl. rewrite <- app_assoc. repeat split.
    constructor; [|exact Hall]. exists remote. auto.
Qed.

End LoopsMore.

(** The log ends with a given entry. *)
Lemma ends_single {A} (x : A) : exists pre, [x] = (pre ++ [x])%list.
Proof. exists []. reflexivity. Qed.

Lemma ends_cons {A} (a x : A) l :
  (exists pre, l = (pre ++ [x])%list) -> exists pre, a :: l = (pre ++ [x])%list.
Proof. intros [pre ->]. exists (a :: pre). reflexivity. Qed.

Lemma ends_app {A} (x : A) l1 l2 :
  (exists pre, l2 = (pre ++ [x])%list) ->
  exists pre, (l1 ++ l2)%list = (pre ++ [x])%list.
Proof. intros [pre ->]. exists (l1 ++ pre)%list. apply app_assoc. Qed.

Ltac ends :=
  repeat first [ apply ends_single | apply ends_cons | apply ends_app
               | eexists; reflexivity ].

Lemma filter_lookupsOf resolved :
  List.filter isGetUserNameByID (lookupsOf resolved) = lookupsOf resolved.
Proof. induction resolved as [|p l IH]; simpl; [|rewrite IH]; reflexivity. Qed.

Lemma methods_lookupsOf resolved :
  map methodOf (lookupsOf resolved) = repeat MGetUserNameByID (length resolved).
Proof. induction resolved as [|p l IH]; simpl; [|rewrite IH]; reflexivity. Qed.

Section Properties.

Context {W : Type}.
Variable Teacher : N.
Variable Rejected : N.
Variable parseUint : string -> res N.
Variable getSCM : echoContext.t -> string -> res (SCM W).


(** ** PatchGroup *)




(** C4 (as the code has it). In every successful run of PatchGroup exactly
    one local repository record is written; its kind tag is
    [models.UserRepo], its user id is 0 and its owning group id is the id
    of the provisioned group. *)
Theorem C4_record_kind_and_owner (db : Database W) c w out w1 tr :
  run (PatchGroup Teacher parseUint getSCM db c) w = (out, w1, tr) ->
  out = NoContent StatusOK ->
  exists id grp record,
    In (EvGetGroup true id (Ok grp)) tr
    /\ List.filter isDbCreateRepository tr = [EvDbCreateRepository record None]
    /\ models.Repository.Type_ record = models.UserRepo
    /\ models.Repository.UserID record = 0
    /\ models.Repository.GroupID record = models.Group.ID grp.
Proof.
  intros H Hout. unfold PatchGroup in H.
  exits H; try discriminate.
  all: eexists _, _, _; split; [left; reflexivity|].
  all: split; [logfilter; reflexivity|].
  all: repeat split.
Qed.

(** Runs the handler again along the answers recorded in the context. *)
Ltac replay :=
  unfold PatchGroup, run, bind, call, try, tryErr, ret, exit;
  cbn [withStatus db_GetGroup db_GetCourse db_CreateRepository
       db_UpdateGroupStatus];
  repeat (match goal with
          | Hx : ?x = _ |- context [match ?x with _ => _ end] => rewrite Hx
          end;
          cbn [setStatus models.Group.ID models.Group.Name
               models.Group.CourseID models.Group.Users]);
  simpl;
  rewrite ?map_app;
  try match goal with
      | Hl : gitUserNamesOf _ _ _ _ _ = _ |- context [map (relabel ?st) _] =>
          rewrite (gitUserNamesOf_relabel st _ _ _ _ _ _ _ _ Hl)
      end;
  reflexivity.

(** C5 (as the code has it). The gate of PatchGroup is on the requested
    status: a run makes a call to the store or to the provider only when
    the identifier parses, the body decodes, the requested status is at
    most [models.Teacher] and the caller is an administrator; a request
    whose requested status is above [models.Teacher] is rejected with no
    call made and the world untouched.  The current status of the group
    is not consulted: against a store that reports the group at any other
    status the run has the same outcome, the same effect and the same
    calls. *)
Theorem C5_gate_is_on_requested_status (db : Database W) c w out w1 tr :
  run (PatchGroup Teacher parseUint getSCM db c) w = (out, w1, tr) ->
  (tr <> [] ->
   exists id ngrp,
     parseUint (echoContext.Param c "gid") = Ok id
     /\ echoContext.Bind c = Ok ngrp
     /\ UpdateGroupRequest.Status ngrp <= Teacher
     /\ models.User.IsAdmin (echoContext.user c) = Some true)
  /\ (forall ngrp,
        echoContext.Bind c = Ok ngrp ->
        Teacher < UpdateGroupRequest.Status ngrp ->
        tr = [] /\ w1 = w /\ exists e, out = Failed e)
  /\ (forall status,
        run (PatchGroup Teacher parseUint getSCM (withStatus status db) c) w =
          (out, w1, map (relabel status) tr)).
Proof.
  intros H. unfold PatchGroup in H.
  exits H.
  all: split;
    [ intros Htr; try congruence
    | split;
      [ intros ngrp Hb Hlt; simplify_eq;
        try match goal with
            | Hs : (_ <? _) = false |- _ => apply N.ltb_ge in Hs; lia
            end;
        try (repeat split; eauto; fail)
      | intros status; replay ] ].
  all: eexists _, _; repeat split; eauto.
  all: try match goal with
           | Hs : (_ <? _) = false |- _ => apply N.ltb_ge in Hs; exact Hs
           end.
  all: match goal with
       | Hb : negb ?b = false |- _ => destruct b; [reflexivity|discriminate]
       end.
Qed.

(** C6 (as the code has it). A request that passes the gate, for a group
    and a course the store returns and a provider for which a client is
    registered, when some member of the group has no linked entry for
    the course's provider: no CreateTeam call is issued and the run ends
    in an error.  When a provider call or a store write of the run
    fails, that error is the one of the failed call, which is the last
    entry of the log; when none fails, the error is NotFound, returned
    after the status of the group has been updated. *)
Theorem C6_unlinked_member_aborts (db : Database W) c w id ngrp grp w1 course w2
  s out w' tr :
  parseUint (echoContext.Param c "gid") = Ok id ->
  echoContext.Bind c = Ok ngrp ->
  UpdateGroupRequest.Status ngrp <= Teacher ->
  models.User.IsAdmin (echoContext.user c) = Some true ->
  db_GetGroup db true id w = (Ok grp, w1) ->
  db_GetCourse db (models.Group.CourseID grp) w1 = (Ok course, w2) ->
  getSCM c (models.Course.Provider course) = Ok s ->
  (exists u, In u (models.Group.Users grp)
             /\ linked (models.Course.Provider course) u = false) ->
  run (PatchGroup Teacher parseUint getSCM db c) w = (out, w', tr) ->
  List.filter isCreateTeam tr = []
  /\ (exists e, out = Failed e)
  /\ (forall ev e,
        In ev tr -> failure ev = Some e ->
        out = Failed e /\ exists pre, tr = (pre ++ [ev])%list)
  /\ ((forall ev, In ev tr -> failure ev = None) ->
      out = Failed (HTTPError StatusNotFound "Not Found")
      /\ kindOf (HTTPError StatusNotFound "Not Found") = KNotFound
      /\ In (EvUpdateGroupStatus (models.Group.ID grp)
               (UpdateGroupRequest.Status ngrp) None) tr).
Proof.
  intros Hid Hb Hst Hadm Hg Hc Hs (u & Hu & Hl) H.
  apply N.ltb_ge in Hst.
  unfold PatchGroup in H. unfoldM H.
  rewrite Hid, Hb in H. simpl in H. rewrite Hst, Hadm in H. simpl in H.
  rewrite Hg in H. simpl in H. rewrite Hc in H. simpl in H.
  rewrite Hs in H. simpl in H.
  break H; simpl in H; simplify_eq.
  all: try match goal with
           | Hloop : gitUserNamesOf _ _ _ _ _ = _ |- _ =>
               pose proof (gitUserNamesOf_result _ _ _ _ _ _ _ _ Hloop) as Hres;
               simpl in Hres
           end.
  all: try (rewrite (Hres u Hu) in Hl; discriminate Hl).
  all: split; [logfilter; reflexivity|].
  all: split;
    [first [eexists; reflexivity
           | destruct Hres as [[-> _]|(uid & e & -> & _)]; eexists; reflexivity]|].
  all: split.
  all: try (intros ev e0 Hin Hf;
            repeat match goal with
              | Hx : In _ (_ ++ _) |- _ => apply in_app_or in Hx
              | Hx : In _ (_ :: _) |- _ => destruct Hx as [<-|Hx]
              | Hx : In _ [] |- _ => destruct Hx
              | Hx : _ \/ _ |- _ => destruct Hx as [Hx|Hx]
              end;
            first [ simpl in Hf; simplify_eq; (split; [reflexivity|ends])
                  | match goal with
                    | Hloop : gitUserNamesOf _ _ _ _ _ = _, Hx : In _ _ |- _ =>
                        destruct (gitUserNamesOf_failure _ _ _ _ _ _ _ _ _ _
                                    Hloop Hx Hf) as [Hr [pre ->]]
                    end;
                    simplify_eq; (split; [reflexivity|ends]) ]).
  all: intros Hnone.
  all: try match goal with
           | |- context [EvGetDirectory ?a (Err ?e)] =>
               specialize (Hnone (EvGetDirectory a (Err e)))
           | |- context [EvGetRepositories ?a (Err ?e)] =>
               specialize (Hnone (EvGetRepositories a (Err e)))
           | |- context [EvCreateRepository ?a (Err ?e)] =>
               specialize (Hnone (EvCreateRepository a (Err e)))
           | |- context [EvDbCreateRepository ?a (Some ?e)] =>
               specialize (Hnone (EvDbCreateRepository a (Some e)))
           | |- context [EvUpdateGroupStatus ?a ?b (Some ?e)] =>
               specialize (Hnone (EvUpdateGroupStatus a b (Some e)))
           end.
  all: try (simpl in Hnone;
            match type of Hnone with
            | ?P -> _ => assert P as HP by (simpl; auto 10);
                         specialize (Hnone HP); discriminate Hnone
            end).
  all: destruct Hres as [[-> _]|(uid & e & Ho & Hin)].
  all: try (split; [reflexivity|]; split; [reflexivity|]; simpl; auto 10).
  all: assert (failure (EvGetUserNameByID uid (Err e)) = None) as Hx
    by (apply Hnone; simpl; repeat (first [exact Hin | right])).
  all: discriminate Hx.
Qed.

(** C7. A request whose identifier parses and whose requested status is
    above [models.Teacher] fails with HTTP 400 (InvalidArgument); the log
    is empty, so no call to the provider (nor to the store) is made, and
    the world is untouched. *)
Theorem C7_status_above_threshold_rejected (db : Database W) c w id ngrp :
  parseUint (echoContext.Param c "gid") = Ok id ->
  echoContext.Bind c = Ok ngrp ->
  Teacher < UpdateGroupRequest.Status ngrp ->
  run (PatchGroup Teacher parseUint getSCM db c) w =
    (Failed (HTTPError StatusBadRequest "invalid payload"), w, [])
  /\ kindOf (HTTPError StatusBadRequest "invalid payload") = KInvalidArgument.
Proof.
  intros Hid Hb Hlt. split; [|reflexivity].
  unfold PatchGroup, run, bind, try, ret, exit.
  rewrite Hid, Hb. simpl.
  apply N.ltb_lt in Hlt. rewrite Hlt. reflexivity.
Qed.

(** C10. For an existing group whose status permits deletion, when the
    store's DeleteGroup returns an error the handler drops it: it returns
    nil, reporting no failure, after the two store calls. *)
Theorem C10_delete_error_is_discarded (db : Database W) c w gid group w1 e w2 :
  parseUint (echoContext.Param c "gid") = Ok gid ->
  db_GetGroup db false gid w = (Ok group, w1) ->
  models.Group.Status group <= Rejected ->
  db_DeleteGroup db gid w1 = (Some e, w2) ->
  exists out,
    run (DeleteGroup Rejected parseUint db c) w =
      (out, w2, [EvGetGroup false gid (Ok group); EvDeleteGroup gid (Some e)])
    /\ out = ReturnNil
    /\ reported out = None.
Proof.
  intros Hid Hg Hst Hdel. exists ReturnNil. split; [|split; reflexivity].
  unfold DeleteGroup, run, bind, call, try, ret, exit.
  rewrite Hid. simpl. rewrite Hg. simpl.
  apply N.ltb_ge in Hst. rewrite Hst. rewrite Hdel. reflexivity.
Qed.


(** ** getCurrentUser *)

(** Settles the cases of one exit of [getCurrentUser]. *)
Ltac c8 md Hget :=
  repeat split;
  repeat match goal with
         | |- _ -> _ => intro
         | |- forall _, _ => intro
         | H : exists _, _ |- _ => destruct H
         | H : _ /\ _ |- _ => destruct H
         | H : _ \/ _ |- _ => destruct H
         end;
  simplify_eq;
  try reflexivity;
  try match goal with
      | Hne : forall code m, StatusError _ _ <> StatusError code m |- _ =>
          destruct (Hne _ _ eq_refl)
      end;
  try (rewrite Hget in *; simpl in *; first [lia | congruence]);
  try (eexists; reflexivity);
  try (exists md; split; [reflexivity|]; rewrite ?Hget; simpl; first [lia | tauto]).

Ltac single Hget :=
  match goal with
  | Hx : MD_Get _ _ = [_] |- _ => rewrite Hget in Hx; injection Hx as <-
  end.

(** C8 (as the code has it). getCurrentUser by the metadata of the
    request.  Without metadata it fails with Aborted.  Without a call to
    the store it fails with Unauthenticated exactly when the metadata
    holds no value under "user" or the single value is the empty string,
    and with PermissionDenied exactly when there is more than one value.
    For a single non-empty value it returns the parse error of
    ParseUint, which carries no status code, or else whatever the
    store's GetUser returns for the parsed id: the user on success, the
    store's error verbatim otherwise.  The only call it makes is that
    GetUser: it writes nothing. *)
Theorem C8_identity_resolver_cases (db : Database W) ctx w r w1 tr :
  getCurrentUser ctx db w = (r, w1, tr) ->
  (grpcContext.metadata ctx = None ->
   r = Err (StatusError Aborted "Malformed request") /\ w1 = w /\ tr = [])
  /\ ((exists m, r = Err (StatusError Unauthenticated m)) /\ tr = [] <->
      exists md, grpcContext.metadata ctx = Some md
                 /\ (MD_Get md "user" = [] \/ MD_Get md "user" = [""]))
  /\ ((exists m, r = Err (StatusError PermissionDenied m)) /\ tr = [] <->
      exists md, grpcContext.metadata ctx = Some md
                 /\ (2 <= length (MD_Get md "user"))%nat)
  /\ (forall md s,
        grpcContext.metadata ctx = Some md ->
        MD_Get md "user" = [s] ->
        s <> "" ->
        match ParseUint s with
        | Err e => r = Err e /\ w1 = w /\ tr = []
                   /\ forall code m, e <> StatusError code m
        | Ok n => db_GetUser db n w = (r, w1) /\ tr = [EvGetUser n r]
        end)
  /\ List.filter isWrite tr = [].
Proof.
  intros H. unfold getCurrentUser in H.
  assert (forall s e, ParseUint s = Err e ->
                      forall code m, e <> StatusError code m) as Hparse.
  { intros s e He code m ->. unfold ParseUint in He.
    destruct s; [discriminate|].
    destruct (parseDigits _ _); discriminate. }
  destruct (grpcContext.metadata ctx) as [md|] eqn:Hmd.
  - destruct (MD_Get md "user") as [|s [|s2 rest]] eqn:Hget; simpl in H.
    + simplify_eq. c8 md Hget.
    + destruct (String.eqb s "") eqn:Hs.
      * apply String.eqb_eq in Hs. subst s. simplify_eq. c8 md Hget.
      * apply String.eqb_neq in Hs.
        destruct (ParseUint s) as [n|e] eqn:Hp.
        -- destruct (db_GetUser db n w) as [[u|e] w2] eqn:Hu;
             simpl in H; simplify_eq.
           ++ c8 md Hget. single Hget. rewrite Hp. auto.
           ++ c8 md Hget. single Hget. rewrite Hp. auto.
        -- simpl in H. simplify_eq. pose proof (Hparse _ _ Hp) as Hne.
           c8 md Hget. single Hget. rewrite Hp. auto.
    + simplify_eq. c8 md Hget.
  - simplify_eq. split; [auto|]. split; [|split; [|split; [|reflexivity]]].
    + split; [intros [[m Hm] _]; discriminate Hm
             |intros (md & Hx & _); discriminate Hx].
    + split; [intros [[m Hm] _]; discriminate Hm
             |intros (md & Hx & _); discriminate Hx].
    + intros md s Hx. discriminate Hx.
Qed.

End Properties.

(** ** Two runs against the in-memory collaborators *)








(** * The properties at the scenarios *)




(** The successful run of the end-to-end scenario writes a record of kind
    [models.UserRepo], which is not the group kind. *)
Lemma C4_counterexample :
  runFresh.1.1 = NoContent StatusOK
  /\ In (EvDbCreateRepository
           (models.Repository.mk 11 100 "org/course/g42" models.UserRepo 0 42)
           None) runFresh.2
  /\ models.Repository.Type_
       (models.Repository.mk 11 100 "org/course/g42" models.UserRepo 0 42)
     <> models.GroupRepo.
Proof.
  split; [vm_compute; reflexivity|]. split; [vm_compute; auto 10|].
  simpl. discriminate.
Qed.

(** C4 at the end-to-end scenario. *)
Lemma C4_witness :
  exists id grp record,
    In (EvGetGroup true id (Ok grp)) runFresh.2
    /\ List.filter isDbCreateRepository runFresh.2 =
         [EvDbCreateRepository record None]
    /\ models.Repository.Type_ record = models.UserRepo
    /\ models.Repository.UserID record = 0
    /\ models.Repository.GroupID record = models.Group.ID grp.
Proof.
  apply (C4_record_kind_and_owner Sim.Teacher Sim.parseUint Sim.getSCM Sim.db
           (Sim.request "42" 2) Sim.world0 runFresh.1.1 runFresh.1.2 runFresh.2).
  - vm_compute. reflexivity.
  - vm_compute. reflexivity.
Defined.

(** A group whose current status is already [Teacher] is provisioned all
    the same: the run succeeds after seven calls to the provider and two
    writes to the store. *)
Lemma C5_counterexample :
  Sim.GetGroup true 42 Sim.worldTeacher =
    (Ok (g42 Sim.Teacher [Sim.u1; Sim.u2]), Sim.worldTeacher)
  /\ Sim.Teacher <= models.Group.Status (g42 Sim.Teacher [Sim.u1; Sim.u2])
  /\ runTeacher.1.1 = NoContent StatusOK
  /\ (length (List.filter isRemote runTeacher.2) = 7)%nat
  /\ (length (List.filter isStoreWrite runTeacher.2) = 2)%nat.
Proof.
  split; [vm_compute; reflexivity|]. split; [vm_compute; discriminate|].
  repeat split; vm_compute; reflexivity.
Qed.

(** C5 at the end-to-end scenario. *)
Lemma C5_witness :
  (runFresh.2 <> [] ->
   exists id ngrp,
     Sim.parseUint (echoContext.Param (Sim.request "42" 2) "gid") = Ok id
     /\ echoContext.Bind (Sim.request "42" 2) = Ok ngrp
     /\ UpdateGroupRequest.Status ngrp <= Sim.Teacher
     /\ models.User.IsAdmin (echoContext.user (Sim.request "42" 2)) = Some true)
  /\ (forall ngrp,
        echoContext.Bind (Sim.request "42" 2) = Ok ngrp ->
        Sim.Teacher < UpdateGroupRequest.Status ngrp ->
        runFresh.2 = [] /\ runFresh.1.2 = Sim.world0
        /\ exists e, runFresh.1.1 = Failed e)
  /\ (forall status,
        run (PatchGroup Sim.Teacher Sim.parseUint Sim.getSCM
               (withStatus status Sim.db) (Sim.request "42" 2)) Sim.world0 =
          (runFresh.1.1, runFresh.1.2, map (relabel status) runFresh.2)).
Proof.
  apply (C5_gate_is_on_requested_status Sim.Teacher Sim.parseUint Sim.getSCM
           Sim.db (Sim.request "42" 2) Sim.world0).
  vm_compute. reflexivity.
Defined.

(** With members u1 (linked) and u3 (not linked), a failed user name
    lookup of u1 ends the run with the provider's error, and an outage
    at the creation of the repository ends it with the error of the
    outage: neither is NotFound. *)
Lemma C6_counterexample :
  (linked "P" Sim.u1 = true /\ linked "P" Sim.u3 = false)
  /\ (db_GetGroup Sim.db true 42 worldNoHandle =
        (Ok (g42 Sim.Pending [Sim.u1; Sim.u3]), worldNoHandle)
      /\ runNoHandle.1.1 = Failed (OtherError "user not found")
      /\ last runNoHandle.2 =
           Some (EvGetUserNameByID 7 (Err (OtherError "user not found")))
      /\ kindOf (OtherError "user not found") <> KNotFound)
  /\ (db_GetGroup Sim.db true 42 Sim.worldUnlinked =
        (Ok (g42 Sim.Pending [Sim.u1; Sim.u3]), Sim.worldUnlinked)
      /\ runUnlinkedOutage.1.1 = Failed (OtherError "provider unavailable")
      /\ kindOf (OtherError "provider unavailable") <> KNotFound).
Proof.
  split; [split; reflexivity|]. split.
  - split; [vm_compute; reflexivity|]. split; [vm_compute; reflexivity|].
    split; [vm_compute; reflexivity|]. discriminate.
  - split; [vm_compute; reflexivity|]. split; [vm_compute; reflexivity|].
    discriminate.
Qed.

(** C6 at the scenario with a member linked to another provider only. *)
Lemma C6_witness :
  List.filter isCreateTeam runUnlinked.2 = []
  /\ (exists e, runUnlinked.1.1 = Failed e)
  /\ (forall ev e,
        In ev runUnlinked.2 -> failure ev = Some e ->
        runUnlinked.1.1 = Failed e
        /\ exists pre, runUnlinked.2 = (pre ++ [ev])%list)
  /\ ((forall ev, In ev runUnlinked.2 -> failure ev = None) ->
      runUnlinked.1.1 = Failed (HTTPError StatusNotFound "Not Found")
      /\ kindOf (HTTPError StatusNotFound "Not Found") = KNotFound
      /\ In (EvUpdateGroupStatus 42 2 None) runUnlinked.2).
Proof.
  apply (C6_unlinked_member_aborts Sim.Teacher Sim.parseUint Sim.getSCM Sim.db
           (Sim.request "42" 2) Sim.worldUnlinked 42 (UpdateGroupRequest.mk 2)
           (g42 Sim.Pending [Sim.u1; Sim.u3]) Sim.worldUnlinked course5
           Sim.worldUnlinked Sim.client
           runUnlinked.1.1 runUnlinked.1.2 runUnlinked.2).
  - reflexivity.
  - reflexivity.
  - simpl. unfold Sim.Teacher. lia.
  - reflexivity.
  - vm_compute. reflexivity.
  - vm_compute. reflexivity.
  - reflexivity.
  - exists Sim.u3. split; [right; left; reflexivity|reflexivity].
  - vm_compute. reflexivity.
Defined.

(** C7 at the scenario, with the requested status 4 above [Teacher] = 3. *)
Lemma C7_witness :
  simPatch (Sim.request "42" 4) Sim.world0 =
    (Failed (HTTPError StatusBadRequest "invalid payload"), Sim.world0, [])
  /\ kindOf (HTTPError StatusBadRequest "invalid payload") = KInvalidArgument.
Proof.
  apply (C7_status_above_threshold_rejected Sim.Teacher Sim.parseUint
           Sim.getSCM Sim.db (Sim.request "42" 4) Sim.world0 42
           (UpdateGroupRequest.mk 4)).
  - vm_compute. reflexivity.
  - reflexivity.
  - simpl. unfold Sim.Teacher. lia.
Defined.

(** A request without metadata carries no token and fails with Aborted,
    not Unauthenticated; the malformed token "abc" fails with the parse
    error of ParseUint, which is neither PermissionDenied nor NotFound. *)
Lemma C8_counterexample :
  (tokenValues Sim.noMetadata = []
   /\ (simUser Sim.noMetadata Sim.world0).1.1 =
        Err (StatusError Aborted "Malformed request")
   /\ kindOf (StatusError Aborted "Malformed request") <> KUnauthenticated)
  /\ (tokenValues (Sim.withUser ["abc"]) = ["abc"]
      /\ (simUser (Sim.withUser ["abc"]) Sim.world0).1.1 =
           Err (NumError "ParseUint" "abc" ErrSyntax)
      /\ kindOf (NumError "ParseUint" "abc" ErrSyntax) <> KPermissionDenied
      /\ kindOf (NumError "ParseUint" "abc" ErrSyntax) <> KNotFound).
Proof.
  split.
  - split; [reflexivity|]. split; [vm_compute; reflexivity|]. discriminate.
  - split; [vm_compute; reflexivity|]. split; [vm_compute; reflexivity|].
    split; discriminate.
Qed.

(** C8 at a request naming user 9, against a store whose GetUser answers
    with an Unauthenticated status error of its own: the error is passed
    on, after the one call. *)
Lemma C8_witness :
  (grpcContext.metadata (Sim.withUser ["9"]) = None ->
   runGuarded.1.1 = Err (StatusError Aborted "Malformed request")
   /\ runGuarded.1.2 = Sim.world0
   /\ runGuarded.2 = [])
  /\ ((exists m, runGuarded.1.1 = Err (StatusError Unauthenticated m))
      /\ runGuarded.2 = []
      <->
      exists md, grpcContext.metadata (Sim.withUser ["9"]) = Some md
                 /\ (MD_Get md "user" = [] \/ MD_Get md "user" = [""]))
  /\ ((exists m, runGuarded.1.1 = Err (StatusError PermissionDenied m))
      /\ runGuarded.2 = []
      <->
      exists md, grpcContext.metadata (Sim.withUser ["9"]) = Some md
                 /\ (2 <= length (MD_Get md "user"))%nat)
  /\ (forall md s,
        grpcContext.metadata (Sim.withUser ["9"]) = Some md ->
        MD_Get md "user" = [s] ->
        s <> "" ->
        match ParseUint s with
        | Err e =>
            runGuarded.1.1 = Err e
            /\ runGuarded.1.2 = Sim.world0
            /\ runGuarded.2 = []
            /\ forall code m, e <> StatusError code m
        | Ok n =>
            db_GetUser guarded n Sim.world0 = (runGuarded.1.1, runGuarded.1.2)
            /\ runGuarded.2 = [EvGetUser n runGuarded.1.1]
        end)
  /\ List.filter isWrite runGuarded.2 = [].
Proof.
  apply (C8_identity_resolver_cases guarded (Sim.withUser ["9"]) Sim.world0).
  vm_compute. reflexivity.
Defined.


(** C10 at the end-to-end scenario with a store that refuses to write. *)
Lemma C10_witness :
  exists out,
    run (DeleteGroup Sim.Rejected Sim.parseUint Sim.locked (Sim.request "42" 0))
        Sim.world0 =
      (out, Sim.world0,
       [EvGetGroup false 42 (Ok (g42 Sim.Pending [Sim.u1; Sim.u2]));
        EvDeleteGroup 42 (Some (OtherError "database is locked"))])
    /\ out = ReturnNil
    /\ reported out = None.
Proof.
  apply (C10_delete_error_is_discarded Sim.Rejected Sim.parseUint Sim.locked
           (Sim.request "42" 0) Sim.world0 42 (g42 Sim.Pending [Sim.u1; Sim.u2])
           Sim.world0 (OtherError "database is locked") Sim.world0).
  - vm_compute. reflexivity.
  - vm_compute. reflexivity.
  - simpl. unfold Sim.Pending, Sim.Rejected. lia.
  - reflexivity.
Defined.

(** * Further properties of the handlers *)

Section HandlersMore.

Context {W : Type}.
Variable Teacher : N.
Variable Rejected : N.
Variable parseUint : string -> res N.
Variable getSCM : echoContext.t -> string -> res (SCM W).

(** X1. A well-formed request of a caller who is not an administrator
    (the flag is nil or false) is answered with 403 by [c.NoContent]: no
    error is returned, no call is made and the world is untouched. *)
Theorem X1_non_admin_forbidden (db : Database W) c w id ngrp :
  parseUint (echoContext.Param c "gid") = Ok id ->
  echoContext.Bind c = Ok ngrp ->
  UpdateGroupRequest.Status ngrp <= Teacher ->
  models.User.IsAdmin (echoContext.user c) <> Some true ->
  run (PatchGroup Teacher parseUint getSCM db c) w =
    (NoContent StatusForbidden, w, [])
  /\ reported (NoContent StatusForbidden) = None.
Proof.
  intros Hid Hb Hst Hadm. split; [|reflexivity].
  unfold PatchGroup, run, bind, try, ret, exit.
  rewrite Hid, Hb. simpl. apply N.ltb_ge in Hst. rewrite Hst.
  destruct (models.User.IsAdmin (echoContext.user c)) as [[|]|];
    [congruence|reflexivity|reflexivity].
Qed.

(** X2. When the store's lookup of the group or of the course fails,
    PatchGroup stops at that call: the not-found sentinel becomes HTTP 404
    with "group not found" or "course not found", any other error is
    returned as it is, and neither a provider call nor a write is made. *)
Theorem X2_lookup_failure_stops (db : Database W) c w out w1 tr :
  run (PatchGroup Teacher parseUint getSCM db c) w = (out, w1, tr) ->
  (forall id e,
     In (EvGetGroup true id (Err e)) tr ->
     tr = [EvGetGroup true id (Err e)]
     /\ out = Failed (notFoundAs "group not found" e))
  /\ (forall cid e,
        In (EvGetCourse cid (Err e)) tr ->
        (exists id grp,
           tr = [EvGetGroup true id (Ok grp); EvGetCourse cid (Err e)])
        /\ out = Failed (notFoundAs "course not found" e)).
Proof.
  intros H. unfold PatchGroup in H.
  exits H.
  all: split; intros ? ? Hin; inlog.
  all: repeat split; eauto.
Qed.

(** X3. PatchGroup fails fast: a provider call or a store write that
    fails is the last entry of the log, and its error is what the handler
    returns. *)
Theorem X3_fails_fast (db : Database W) c w out w1 tr ev e :
  run (PatchGroup Teacher parseUint getSCM db c) w = (out, w1, tr) ->
  In ev tr ->
  failure ev = Some e ->
  out = Failed e /\ exists pre, tr = (pre ++ [ev])%list.
Proof.
  intros H Hin Hf. unfold PatchGroup in H.
  exits H.
  all: repeat match goal with
       | Hx : In _ (_ ++ _) |- _ => apply in_app_or in Hx
       | Hx : In _ (_ :: _) |- _ => destruct Hx as [<-|Hx]
       | Hx : In _ [] |- _ => destruct Hx
       | Hx : _ \/ _ |- _ => destruct Hx as [Hx|Hx]
       end.
  all: try (simpl in Hf; simplify_eq; (split; [reflexivity|ends]); fail).
  all: match goal with
       | Hl : gitUserNamesOf _ _ _ _ _ = _, Hx : In _ _ |- _ =>
           destruct (gitUserNamesOf_failure _ _ _ _ _ _ _ _ _ _ Hl Hx Hf)
             as [Hr [pre ->]]
       end.
  all: simplify_eq.
  all: split; [reflexivity|ends].
Qed.

(** X4. The store writes of PatchGroup are not undone: in every run whose
    status update went through, whatever its outcome, the writes of the
    log are exactly the insert of the repository record followed by that
    update, which carries the group's id and the requested status. *)
Theorem X4_status_update_stays (db : Database W) c w out w1 tr gid st :
  run (PatchGroup Teacher parseUint getSCM db c) w = (out, w1, tr) ->
  In (EvUpdateGroupStatus gid st None) tr ->
  exists id grp ngrp record,
    In (EvGetGroup true id (Ok grp)) tr
    /\ echoContext.Bind c = Ok ngrp
    /\ gid = models.Group.ID grp
    /\ st = UpdateGroupRequest.Status ngrp
    /\ List.filter isStoreWrite tr =
         [EvDbCreateRepository record None; EvUpdateGroupStatus gid st None].
Proof.
  intros H Hin. unfold PatchGroup in H.
  exits H; inlog.
  all: eexists _, _, _, _; split; [left; reflexivity|].
  all: split; [reflexivity|]; split; [reflexivity|]; split; [reflexivity|].
  all: logfilter; reflexivity.
Qed.

(** Rewrites the log of a member loop that ran to its end. *)
Ltac resolved :=
  match goal with
  | Hl : gitUserNamesOf _ _ _ _ _ = (inr _, _, _) |- _ =>
      destruct (gitUserNamesOf_resolved _ _ _ _ _ _ _ _ Hl)
        as (resolved & -> & -> & Hall);
      simpl app in *
  end.

(** Sets aside the exit of the member loop with a success outcome, which
    no run takes. *)
Ltac noexit :=
  try match goal with
      | Hl : gitUserNamesOf _ _ _ _ _ = (inl _, _, _) |- _ =>
          let Hres := fresh in
          pose proof (gitUserNamesOf_result _ _ _ _ _ _ _ _ Hl) as Hres;
          simpl in Hres;
          destruct Hres as [[? _]|(? & ? & ? & _)]; discriminate
      end.

(** X5. In a successful run every member of the group is resolved once,
    in the order of the members: the user name lookups of the log are one
    per member, each for the provider user id of the member's linked
    entry, and CreateTeam is called with the group name, the path of the
    directory and the user names in that same order. *)
Theorem X5_members_resolved_in_order (db : Database W) c w out w1 tr :
  run (PatchGroup Teacher parseUint getSCM db c) w = (out, w1, tr) ->
  out = NoContent StatusOK ->
  exists id grp cid course did dir resolved team,
    In (EvGetGroup true id (Ok grp)) tr
    /\ In (EvGetCourse cid (Ok course)) tr
    /\ In (EvGetDirectory did (Ok dir)) tr
    /\ Forall2 (fun u p => remoteIDIs (models.Course.Provider course) u (fst p))
               (models.Group.Users grp) resolved
    /\ List.filter isGetUserNameByID tr = lookupsOf resolved
    /\ In (EvCreateTeam
             (scm.CreateTeamOptions.mk
                (scm.Directory.mk 0 (scm.Directory.Path dir))
                (models.Group.Name grp) (map snd resolved))
             (Ok team)) tr.
Proof.
  intros H Hout. unfold PatchGroup in H.
  exits H; try discriminate; noexit.
  all: resolved.
  all: eexists _, _, _, _, _, _, resolved, _.
  all: split; [simpl; eauto 10|]; split; [simpl; eauto 10|].
  all: split; [simpl; eauto 10|]; split; [exact Hall|].
  all: split;
    [ simpl; rewrite List.filter_app, filter_lookupsOf; simpl;
      apply app_nil_r
    | simpl; repeat right; apply in_or_app; right; left; reflexivity ].
Qed.

(** X6. In a successful run the repository attached to the team is the
    one that was recorded: AddTeamRepo is called with the id of the team
    that CreateTeam returned and with the owner and path of the
    repository, listed or newly created, whose id and web URL the local
    record carries. *)
Theorem X6_recorded_repository_is_attached (db : Database W) c w out w1 tr :
  run (PatchGroup Teacher parseUint getSCM db c) w = (out, w1, tr) ->
  out = NoContent StatusOK ->
  exists id grp dir repos repo record topt team,
    In (EvGetGroup true id (Ok grp)) tr
    /\ In (EvGetRepositories dir (Ok repos)) tr
    /\ (lastAt (models.Group.Name grp) repos = Some repo
        \/ (lastAt (models.Group.Name grp) repos = None
            /\ exists opt, In (EvCreateRepository opt (Ok repo)) tr))
    /\ In (EvDbCreateRepository record None) tr
    /\ models.Repository.RepositoryID record = scm.Repository.ID repo
    /\ models.Repository.HTMLURL record = scm.Repository.WebURL repo
    /\ In (EvCreateTeam topt (Ok team)) tr
    /\ In (EvAddTeamRepo
             (scm.AddTeamRepoOptions.mk (scm.Team.ID team)
                (scm.Repository.Owner repo) (scm.Repository.Path repo))
             None) tr.
Proof.
  intros H Hout. unfold PatchGroup in H.
  exits H; try discriminate; noexit.
  all: match goal with
       | Hx : existingOf _ !! _ = _ |- _ => rewrite existingOf_lookup in Hx
       end.
  all: eexists _, _, _, _, _, _, _, _.
  all: split; [simpl; eauto 10|]; split; [simpl; eauto 10|].
  all: split; [first [left; eassumption
                     | right; split; [eassumption|]; eexists; simpl; eauto 10]|].
  all: split; [simpl; eauto 10|]; split; [reflexivity|]; split; [reflexivity|].
  all: split; simpl; repeat right; apply in_or_app; right; simpl; eauto.
Qed.

(** X7. The calls of a successful run come in one fixed order: the two
    store lookups, the directory, the listing, the creation of the
    repository when the listing has none at the group name, the insert of
    the record, the status update, one user name lookup per member, the
    creation of the team and the attachment of the repository. *)
Theorem X7_order_of_calls (db : Database W) c w out w1 tr :
  run (PatchGroup Teacher parseUint getSCM db c) w = (out, w1, tr) ->
  out = NoContent StatusOK ->
  exists id grp dir repos,
    In (EvGetGroup true id (Ok grp)) tr
    /\ In (EvGetRepositories dir (Ok repos)) tr
    /\ map methodOf tr =
         ([MGetGroup; MGetCourse; MGetDirectory; MGetRepositories]
          ++ match lastAt (models.Group.Name grp) repos with
             | Some _ => []
             | None => [MCreateRepository]
             end
          ++ [MDbCreateRepository; MUpdateGroupStatus]
          ++ repeat MGetUserNameByID (length (models.Group.Users grp))
          ++ [MCreateTeam; MAddTeamRepo])%list.
Proof.
  intros H Hout. unfold PatchGroup in H.
  exits H; try discriminate; noexit.
  all: match goal with
       | Hx : existingOf _ !! _ = _ |- _ => rewrite existingOf_lookup in Hx
       end.
  all: resolved.
  all: eexists _, _, _, _.
  all: split; [simpl; eauto 10|]; split; [simpl; eauto 10|].
  all: match goal with
       | Hx : lastAt _ _ = _ |- _ => rewrite Hx
       end.
  all: rewrite (Forall2_length _ _ _ Hall).
  all: simpl; rewrite map_app, methods_lookupsOf; reflexivity.
Qed.

(** ** DeleteGroup *)

(** X8. DeleteGroup asks the store to delete a group only after it has
    found the group and seen a status of at most [models.Rejected]: in
    every run that makes the delete call, the log is the lookup of the
    requested id followed by the delete of that same id, and the answer is
    200 when the store deleted the group. *)
Theorem X8_delete_only_pending_or_rejected (db : Database W) c w out w1 tr gid r :
  run (DeleteGroup Rejected parseUint db c) w = (out, w1, tr) ->
  In (EvDeleteGroup gid r) tr ->
  exists group,
    parseUint (echoContext.Param c "gid") = Ok gid
    /\ tr = [EvGetGroup false gid (Ok group); EvDeleteGroup gid r]
    /\ models.Group.Status group <= Rejected
    /\ out = match r with
             | None => NoContent StatusOK
             | Some _ => ReturnNil
             end.
Proof.
  intros H Hin. unfold DeleteGroup in H.
  exits H; inlog.
  all: eexists; split; [reflexivity|]; split; [reflexivity|].
  all: split; [|reflexivity].
  all: match goal with
       | Hs : (_ <? _) = false |- _ => apply N.ltb_ge in Hs; exact Hs
       end.
Qed.

(** X9. DeleteGroup refuses without deleting: for a group whose status is
    above [models.Rejected] it returns HTTP 403 "accepted group cannot be
    deleted", for a failed lookup HTTP 404 "group not found" (the store's
    sentinel) or the store's error as it is; in both cases the lookup is
    the only call. *)
Theorem X9_delete_refused (db : Database W) c w out w1 tr :
  run (DeleteGroup Rejected parseUint db c) w = (out, w1, tr) ->
  (forall gid group,
     In (EvGetGroup false gid (Ok group)) tr ->
     Rejected < models.Group.Status group ->
     tr = [EvGetGroup false gid (Ok group)]
     /\ out = Failed (HTTPError StatusForbidden
                                "accepted group cannot be deleted"))
  /\ (forall gid e,
        In (EvGetGroup false gid (Err e)) tr ->
        tr = [EvGetGroup false gid (Err e)]
        /\ out = Failed (notFoundAs "group not found" e)).
Proof.
  intros H. unfold DeleteGroup in H.
  exits H.
  all: split; [intros ? ? Hin Hlt|intros ? ? Hin]; inlog.
  all: try (split; reflexivity).
  all: match goal with
       | Hs : (_ <? _) = false |- _ => apply N.ltb_ge in Hs; lia
       end.
Qed.

End HandlersMore.

(** ** GetGroup *)

Section GetMore.

Context {W : Type}.
Variable parseUint : string -> res N.

(** X10. GetGroup only reads: its log holds at most the one store lookup
    of the requested id, made without remote identities, and no write or
    provider call.  On success it writes the store's group as it is with
    status 200; a failed lookup gives HTTP 404 "group not found" for the
    store's sentinel and the store's error otherwise; an identifier that
    does not parse gives the parse error with no call made. *)
Theorem X10_GetGroup_reads_only (db : Database W) c w r w1 tr :
  GetGroup parseUint db c w = (r, w1, tr) ->
  List.filter isWrite tr = []
  /\ List.filter isRemote tr = []
  /\ (forall reply,
        r = inr reply ->
        exists gid group,
          parseUint (echoContext.Param c "gid") = Ok gid
          /\ tr = [EvGetGroup false gid (Ok group)]
          /\ reply = JSONPretty StatusOK group tab)
  /\ (forall gid e,
        In (EvGetGroup false gid (Err e)) tr ->
        tr = [EvGetGroup false gid (Err e)]
        /\ r = inl (Failed (notFoundAs "group not found" e)))
  /\ (forall e,
        parseUint (echoContext.Param c "gid") = Err e ->
        tr = [] /\ w1 = w /\ r = inl (Failed e)).
Proof.
  intros H. unfold GetGroup in H.
  unfoldM H; break H; simpl in H; simplify_eq.
  all: split; [reflexivity|]; split; [reflexivity|].
  all: split; [intros reply Hr; simplify_eq; eauto|].
  all: split; [intros ? ? Hin; inlog; split; reflexivity|].
  all: intros ? He; simplify_eq; auto.
Qed.

End GetMore.

(** ** getSCM *)

Section ResolverMore.

Context {W : Type}.

Lemma getCurrentUser_log (db : Database W) ctx w r w1 tr :
  getCurrentUser ctx db w = (r, w1, tr) ->
  tr = [] \/ exists n ru, tr = [EvGetUser n ru].
Proof.
  intros H. unfold getCurrentUser in H. break H; simplify_eq; eauto.
Qed.

Lemma scanIdentities_find (scms : gmap string (SCM W)) provider user :
  grpc_service.scanIdentities scms provider (models.User.RemoteIdentities user) =
  match firstIdentity provider user with
  | None => Err (StatusError NotFound "No SCM found")
  | Some identity =>
      match scms !! models.RemoteIdentity.AccessToken identity with
      | None => Err (StatusError PermissionDenied "Invalid token")
      | Some s => Ok s
      end
  end.
Proof.
  unfold firstIdentity.
  induction (models.User.RemoteIdentities user) as [|v l IH]; simpl;
    [reflexivity|].
  destruct (String.eqb (models.RemoteIdentity.Provider v) provider);
    [reflexivity|exact IH].
Qed.

Lemma firstIdentity_linked provider user :
  firstIdentity provider user = None <-> linked provider user = false.
Proof.
  unfold firstIdentity, linked.
  induction (models.User.RemoteIdentities user) as [|v l IH]; simpl;
    [tauto|].
  destruct (String.eqb (models.RemoteIdentity.Provider v) provider); simpl;
    [split; discriminate|exact IH].
Qed.

(** X11. getSCM makes no call of its own: its log and its effect on the
    world are those of getCurrentUser, whose failure it returns unchanged;
    the log holds at most one call, the store's GetUser, and no write. *)
Theorem X11_getSCM_adds_no_call (db : Database W) ctx scms provider w ru w1 tr :
  getCurrentUser ctx db w = (ru, w1, tr) ->
  exists rs,
    grpc_service.getSCM ctx scms db provider w = (rs, w1, tr)
    /\ (forall e, ru = Err e -> rs = Err e)
    /\ List.filter isWrite tr = []
    /\ (length tr <= 1)%nat.
Proof.
  intros H. unfold grpc_service.getSCM. rewrite H.
  pose proof (getCurrentUser_log _ _ _ _ _ _ H) as Hlog.
  destruct ru as [user|err]; eexists; (split; [reflexivity|]).
  all: split; [intros e He; congruence|].
  all: destruct Hlog as [->|(n & r & ->)]; simpl; auto.
Qed.

(** X12. For a resolved caller getSCM fails with NotFound "No SCM found"
    exactly when the caller has no remote identity of the provider. *)
Theorem X12_getSCM_not_found_iff_unlinked (db : Database W)
  ctx scms provider w user w1 tr :
  getCurrentUser ctx db w = (Ok user, w1, tr) ->
  grpc_service.getSCM ctx scms db provider w =
    (Err (StatusError NotFound "No SCM found"), w1, tr)
  <-> linked provider user = false.
Proof.
  intros H. unfold grpc_service.getSCM. rewrite H, scanIdentities_find.
  rewrite <- firstIdentity_linked.
  destruct (firstIdentity provider user) as [identity|]; [|tauto].
  destruct (scms !! _); split; intros Hx; simplify_eq.
Qed.

(** X13. The first remote identity of the provider decides: when its
    access token is not registered, getSCM fails with PermissionDenied
    "Invalid token", whatever identities follow it, also one of the same
    provider with a registered token. *)
Theorem X13_getSCM_first_identity_decides (db : Database W)
  ctx scms provider w user w1 tr pre identity rest :
  getCurrentUser ctx db w = (Ok user, w1, tr) ->
  models.User.RemoteIdentities user = (pre ++ identity :: rest)%list ->
  (forall v, In v pre -> models.RemoteIdentity.Provider v <> provider) ->
  models.RemoteIdentity.Provider identity = provider ->
  scms !! models.RemoteIdentity.AccessToken identity = None ->
  grpc_service.getSCM ctx scms db provider w =
    (Err (StatusError PermissionDenied "Invalid token"), w1, tr).
Proof.
  intros H Hids Hpre Hprov Htok. unfold grpc_service.getSCM. rewrite H, Hids.
  clear Hids. induction pre as [|v pre IH]; simpl.
  - apply String.eqb_eq in Hprov. rewrite Hprov, Htok. reflexivity.
  - destruct (String.eqb (models.RemoteIdentity.Provider v) provider) eqn:Hv.
    + apply String.eqb_eq in Hv. destruct (Hpre v (or_introl eq_refl) Hv).
    + apply IH. intros v' Hin. apply Hpre. right. exact Hin.
Qed.

(** X14. The client getSCM returns is the one registered under the access
    token of the caller's first remote identity of the requested
    provider. *)
Theorem X14_getSCM_returns_registered_client (db : Database W)
  ctx scms provider w s w1 tr :
  grpc_service.getSCM ctx scms db provider w = (Ok s, w1, tr) ->
  exists user identity,
    getCurrentUser ctx db w = (Ok user, w1, tr)
    /\ firstIdentity provider user = Some identity
    /\ In identity (models.User.RemoteIdentities user)
    /\ models.RemoteIdentity.Provider identity = provider
    /\ scms !! models.RemoteIdentity.AccessToken identity = Some s.
Proof.
  unfold grpc_service.getSCM.
  destruct (getCurrentUser ctx db w) as [[[user|err] w2] t]; intros H;
    [|discriminate H].
  rewrite scanIdentities_find in H.
  destruct (firstIdentity provider user) as [identity|] eqn:Hf;
    [|discriminate H].
  destruct (scms !! _) as [s'|] eqn:Hs; [|discriminate H].
  simplify_eq. exists user, identity. split; [reflexivity|].
  split; [exact Hf|]. unfold firstIdentity in Hf.
  apply find_some in Hf as [Hin Hp]. apply String.eqb_eq in Hp. auto.
Qed.

End ResolverMore.

(** * Properties of the assignment parser *)

(** ** findAssignmentByName *)

Section FindProperties.

Context {B : Type}.

Abbreviation Assignment := (pb.Assignment.t B).

Lemma findFrom_None (l : list Assignment) name i found :
  assignments.findFrom l name i found = None <->
  found = None /\ forall a, In a l -> pb.Assignment.Name a <> name.
Proof.
  revert i found. induction l as [|x l IH]; intros i found; simpl.
  - split; [intros ->; split; [reflexivity|intros a []]|intros [-> _]; reflexivity].
  - rewrite IH. destruct (String.eqb (pb.Assignment.Name x) name) eqn:Hx.
    + split; [intros [Hd _]; discriminate Hd|].
      intros [_ Hall]. apply String.eqb_eq in Hx.
      destruct (Hall x (or_introl eq_refl) Hx).
    + apply String.eqb_neq in Hx. split.
      * intros [-> Hall]. split; [reflexivity|].
        intros a [<-|Hin]; auto.
      * intros [-> Hall]. split; [reflexivity|]. intros a Hin. apply Hall.
        right. exact Hin.
Qed.

Lemma findFrom_Some (l : list Assignment) name i found k :
  assignments.findFrom l name i found = Some k ->
  (found = Some k /\ forall a, In a l -> pb.Assignment.Name a <> name)
  \/ (exists a, (i <= k)%nat
                /\ l !! (k - i)%nat = Some a
                /\ pb.Assignment.Name a = name
                /\ forall j b, (k - i < j)%nat -> l !! j = Some b ->
                               pb.Assignment.Name b <> name).
Proof.
  revert i found. induction l as [|x l IH]; intros i found H; simpl in H.
  - left. split; [exact H|intros a []].
  - apply IH in H as [[Hf Hall]|(a & Hle & Hk & Hn & Hlast)].
    + destruct (String.eqb (pb.Assignment.Name x) name) eqn:Hx.
      * apply String.eqb_eq in Hx. injection Hf as <-. right. exists x.
        rewrite Nat.sub_diag. repeat split; auto.
        intros j b Hj Hb. destruct j as [|j]; [lia|]. simpl in Hb.
        apply Hall. apply list_elem_of_In, list_elem_of_lookup. eauto.
      * apply String.eqb_neq in Hx. left. split; [exact Hf|].
        intros a [<-|Hin]; auto.
    + right. exists a. split; [lia|].
      replace (k - i)%nat with (S (k - S i)) by lia. split; [exact Hk|].
      split; [exact Hn|]. intros j b Hj Hb. destruct j as [|j]; [lia|].
      simpl in Hb. apply (Hlast j b); [lia|exact Hb].
Qed.

(** X15. findAssignmentByName returns the last assignment of the slice
    with the given name, not the first, and nil exactly when no
    assignment has that name. *)
Theorem X15_find_returns_last_match (l : list Assignment) name :
  (assignments.findAssignmentByName l name = None <->
   forall a, In a l -> pb.Assignment.Name a <> name)
  /\ (forall i,
        assignments.findAssignmentByName l name = Some i ->
        exists a, l !! i = Some a
                  /\ pb.Assignment.Name a = name
                  /\ forall j b, (i < j)%nat -> l !! j = Some b ->
                                 pb.Assignment.Name b <> name).
Proof.
  unfold assignments.findAssignmentByName. split.
  - rewrite findFrom_None. tauto.
  - intros i H. apply findFrom_Some in H as [[Hd _]|(a & _ & Hi & Hn & Hlast)];
      [discriminate Hd|].
    rewrite Nat.sub_0_r in Hi, Hlast. eauto.
Qed.

End FindProperties.

Section ParserProperties.

Context {B : Type}.
Variable ReadFile : string -> res string.
Variable yamlUnmarshal : string -> res assignments.assignmentData.
Variable jsonUnmarshal : string -> res (list B).
Variable Base : string -> string.
Variable Dir : string -> string.
Variable Stat : string -> option error.
Variable IsNotExist : option error -> bool.
Variable Walk : string -> list assignments.Entry.t.
Variable Time : Type.
Variable Parse : string -> string -> res Time.
Variable Format : Time -> string -> string.
Variable TimeLayout : string.

Abbreviation Assignment := (pb.Assignment.t B).
Abbreviation readAssignment :=
  (assignments.readAssignmentFile (B:=B) ReadFile yamlUnmarshal Base Dir
     Time Parse Format TimeLayout).
Abbreviation visitEntry :=
  (assignments.visit ReadFile yamlUnmarshal jsonUnmarshal Base Dir
     Time Parse Format TimeLayout).
Abbreviation walkEntries :=
  (assignments.walkFrom ReadFile yamlUnmarshal jsonUnmarshal Base Dir
     Time Parse Format TimeLayout).
Abbreviation parse :=
  (assignments.parseAssignments ReadFile yamlUnmarshal jsonUnmarshal Base Dir
     Stat IsNotExist Walk Time Parse Format TimeLayout).
Abbreviation isFile := (assignments.isFile Base).
Abbreviation isAssignmentFile := (assignments.isAssignmentFile Base).
Abbreviation folderOf := (assignments.folderOf Base Dir).

(** ** The walk *)

Lemma identity_alter (f : Assignment -> Assignment) i (l : list Assignment) :
  (forall a, assignments.identityOf (f a) = assignments.identityOf a) ->
  map assignments.identityOf (alter f i l) = map assignments.identityOf l.
Proof.
  intros Hf. revert i. induction l as [|x l IH]; intros i; [reflexivity|].
  destruct i as [|i]; simpl; [rewrite Hf; reflexivity|].
  f_equal. apply IH.
Qed.

Lemma isFile_name name e :
  isFile name e = true ->
  assignments.Entry.IsDir e = false /\ Base (assignments.Entry.path e) = name.
Proof.
  unfold assignments.isFile. intros H. apply andb_true_iff in H as [Hd Hn].
  apply negb_true_iff in Hd. apply String.eqb_eq in Hn. auto.
Qed.

(** Case analysis of the walk function on the kind of the entry. *)
Ltac visits H :=
  unfold assignments.visit, assignments.readAssignmentFile,
    assignments.updateCriteriaFromFile, assignments.readScriptFile in H;
  break H; simplify_eq.

Ltac kinds :=
  unfold assignments.isAssignmentFile, assignments.isFile in *;
  repeat match goal with
         | Hx : negb (assignments.Entry.IsDir _) = _ |- _ =>
             rewrite Hx in *; simpl in *
         | Hx : (String.eqb (Base _) _ || String.eqb (Base _) _) = _ |- _ =>
             rewrite Hx in *; simpl in *
         | Hx : String.eqb (Base _) _ = _ |- _ => rewrite Hx in *; simpl in *
         end;
  simpl in *.

Lemma visit_identity courseID st e st1 :
  visitEntry courseID st e = inr st1 ->
  map assignments.identityOf (assignments.st_assignments st1) =
  (map assignments.identityOf (assignments.st_assignments st)
   ++ if isAssignmentFile e
      then [(0, courseID, folderOf e)] else [])%list.
Proof.
  intros H. visits H; kinds; rewrite ?app_nil_r; try reflexivity.
  all: try (rewrite map_app; reflexivity).
  all: apply identity_alter; intros ?; reflexivity.
Qed.

Lemma walk_identity courseID entries st st1 :
  walkEntries courseID st entries = inr st1 ->
  map assignments.identityOf (assignments.st_assignments st1) =
  (map assignments.identityOf (assignments.st_assignments st)
   ++ map (fun e => (0, courseID, folderOf e))
          (List.filter isAssignmentFile entries))%list.
Proof.
  revert st. induction entries as [|e entries IH]; intros st H; simpl in H.
  - simplify_eq. simpl. rewrite app_nil_r. reflexivity.
  - destruct (visitEntry courseID st e) as [err|st2] eqn:Hv; [discriminate H|].
    rewrite (IH _ H), (visit_identity _ _ _ _ Hv). simpl.
    destruct (isAssignmentFile e); simpl;
      rewrite <- ?app_assoc, ?app_nil_r; reflexivity.
Qed.

Lemma identity_withDefaultScript script (l : list Assignment) :
  map assignments.identityOf (assignments.withDefaultScript script l) =
  map assignments.identityOf l.
Proof.
  unfold assignments.withDefaultScript. rewrite map_map. apply map_ext.
  intros a. destruct (String.eqb _ _); reflexivity.
Qed.

(** Inverts a successful parse of an existing directory. *)
Lemma parse_inv dir courseID result df :
  IsNotExist (Stat dir) = false ->
  parse dir courseID = inr (result, df) ->
  exists st,
    walkEntries courseID (assignments.mkState [] "" "") (Walk dir) = inr st
    /\ df = assignments.st_courseDockerfile st
    /\ result =
         if negb (String.eqb (assignments.st_defaultScript st) "")
         then assignments.withDefaultScript (assignments.st_defaultScript st)
                (assignments.st_assignments st)
         else assignments.st_assignments st.
Proof.
  intros Hdir H. unfold assignments.parseAssignments in H. rewrite Hdir in H.
  destruct (walkEntries _ _ _) as [err|st]; [discriminate H|].
  injection H as <- <-. eauto.
Qed.

(** X16. A successful parse of an existing directory returns one
    assignment per assignment file visited ('assignment.yml' or
    'assignment.yaml'), in the order of the walk; each has id 0, the
    given course id and the name of the folder its file lies in.  Script,
    criteria and Docker files add, drop and rename no assignment. *)
Theorem X16_one_assignment_per_file dir courseID result df :
  IsNotExist (Stat dir) = false ->
  parse dir courseID = inr (result, df) ->
  map assignments.identityOf result =
  map (fun e => (0, courseID, folderOf e))
      (List.filter isAssignmentFile (Walk dir)).
Proof.
  intros Hdir H. destruct (parse_inv _ _ _ _ Hdir H) as (st & Hw & _ & ->).
  apply walk_identity in Hw. simpl in Hw.
  destruct (negb _); [rewrite identity_withDefaultScript|]; exact Hw.
Qed.

Lemma walk_app courseID l1 l2 st :
  walkEntries courseID st (l1 ++ l2) =
  match walkEntries courseID st l1 with
  | inl err => inl err
  | inr st1 => walkEntries courseID st1 l2
  end.
Proof.
  revert st. induction l1 as [|e l1 IH]; intros st; simpl; [reflexivity|].
  destruct (visitEntry courseID st e); [reflexivity|apply IH].
Qed.

(** *** The default script *)

Lemma visit_keeps_script courseID st e st1 :
  isFile assignments.scriptFile e = false ->
  visitEntry courseID st e = inr st1 ->
  assignments.st_defaultScript st1 = assignments.st_defaultScript st.
Proof.
  intros Hk H. visits H; kinds; try reflexivity; discriminate Hk.
Qed.

Lemma walk_keeps_script courseID entries st st1 :
  (forall e, In e entries -> isFile assignments.scriptFile e = false) ->
  walkEntries courseID st entries = inr st1 ->
  assignments.st_defaultScript st1 = assignments.st_defaultScript st.
Proof.
  revert st. induction entries as [|e entries IH]; intros st Hall H; simpl in H.
  - simplify_eq. reflexivity.
  - destruct (visitEntry courseID st e) as [err|st2] eqn:Hv; [discriminate H|].
    rewrite (IH st2); [|intros e' Hin; apply Hall; right; exact Hin|exact H].
    eapply visit_keeps_script; [|exact Hv]. apply Hall. left. reflexivity.
Qed.

Lemma visit_script courseID st e st1 :
  isFile assignments.scriptFile e = true ->
  visitEntry courseID st e = inr st1 ->
  if String.eqb (folderOf e) assignments.scriptFolder
  then ReadFile (assignments.Entry.path e) = Ok (assignments.st_defaultScript st1)
  else assignments.st_defaultScript st1 = "".
Proof.
  intros Hk H. apply isFile_name in Hk as [Hd Hn].
  unfold assignments.visit in H. rewrite Hd, Hn in H. simpl in H.
  unfold assignments.readScriptFile, assignments.folderOf in *.
  destruct (ReadFile (assignments.Entry.path e)) as [contents|err];
    [|discriminate H].
  destruct (String.eqb (Base (Dir (assignments.Entry.path e)))
              assignments.scriptFolder); simpl in H.
  - simplify_eq. reflexivity.
  - destruct (assignments.findAssignmentByName _ _); simplify_eq. reflexivity.
Qed.

(** The default script after a walk whose last 'run.sh' is the entry
    between [pre] and [post]. *)
Lemma walk_last_script courseID pre e post st :
  isFile assignments.scriptFile e = true ->
  (forall e', In e' post -> isFile assignments.scriptFile e' = false) ->
  walkEntries courseID (assignments.mkState [] "" "") (pre ++ e :: post) = inr st ->
  if String.eqb (folderOf e) assignments.scriptFolder
  then ReadFile (assignments.Entry.path e) = Ok (assignments.st_defaultScript st)
  else assignments.st_defaultScript st = "".
Proof.
  intros Hk Hpost H. rewrite walk_app in H.
  destruct (walkEntries courseID _ pre) as [err|st1]; [discriminate H|].
  simpl in H.
  destruct (visitEntry courseID st1 e) as [err|st2] eqn:Hv; [discriminate H|].
  rewrite (walk_keeps_script _ _ _ _ Hpost H).
  exact (visit_script _ _ _ _ Hk Hv).
Qed.

(** X17. When the last 'run.sh' the walk visits lies in the 'scripts'
    folder and is not empty, every assignment of a successful parse has a
    script: its own, or that default. *)
Theorem X17_default_script_fills_gaps dir courseID pre e post contents result df :
  IsNotExist (Stat dir) = false ->
  Walk dir = (pre ++ e :: post)%list ->
  isFile assignments.scriptFile e = true ->
  folderOf e = assignments.scriptFolder ->
  (forall e', In e' post -> isFile assignments.scriptFile e' = false) ->
  ReadFile (assignments.Entry.path e) = Ok contents ->
  contents <> "" ->
  parse dir courseID = inr (result, df) ->
  forall a, In a result -> pb.Assignment.ScriptFile a <> "".
Proof.
  intros Hdir Hwalk Hk Hfolder Hpost Hread Hne H.
  destruct (parse_inv _ _ _ _ Hdir H) as (st & Hw & _ & ->).
  rewrite Hwalk in Hw. pose proof (walk_last_script _ _ _ _ _ Hk Hpost Hw) as Hs.
  rewrite Hfolder in Hs. simpl in Hs. rewrite Hread in Hs. injection Hs as Hs.
  rewrite <- Hs. apply String.eqb_neq in Hne. rewrite Hne. simpl.
  intros a Hin. unfold assignments.withDefaultScript in Hin.
  apply in_map_iff in Hin as (a0 & <- & _).
  destruct (String.eqb (pb.Assignment.ScriptFile a0) "") eqn:Ha; simpl.
  - apply String.eqb_neq. exact Hne.
  - apply String.eqb_neq. exact Ha.
Qed.

Lemma in_alter (f : Assignment -> Assignment) i (l : list Assignment) a :
  In a (alter f i l) ->
  In a l \/ exists a0, l !! i = Some a0 /\ a = f a0.
Proof.
  revert i. induction l as [|x l IH]; intros i Hin; [destruct Hin|].
  destruct i as [|i]; simpl in Hin.
  - destruct Hin as [<-|Hin]; [right; exists x; auto|left; right; exact Hin].
  - destruct Hin as [<-|Hin]; [left; left; reflexivity|].
    apply IH in Hin as [Hin|(a0 & Hl & ->)]; [left; right; exact Hin|].
    right. exists a0. auto.
Qed.

Lemma ownScript_more visited e (a : Assignment) :
  assignments.ownScript Base Dir visited a ->
  assignments.ownScript Base Dir (visited ++ [e]) a.
Proof.
  intros [Hs|(e' & Hin & Hk & Hf)]; [left; exact Hs|].
  right. exists e'. split; [apply in_or_app; left; exact Hin|auto].
Qed.

Lemma visit_own courseID visited st e st1 :
  (forall a, In a (assignments.st_assignments st) ->
             assignments.ownScript Base Dir visited a) ->
  visitEntry courseID st e = inr st1 ->
  forall a, In a (assignments.st_assignments st1) ->
            assignments.ownScript Base Dir (visited ++ [e]) a.
Proof.
  intros Hinv H a Hin.
  unfold assignments.visit, assignments.readAssignmentFile,
    assignments.updateCriteriaFromFile, assignments.readScriptFile in H.
  break H; simplify_eq; simpl in Hin.
  all: try (apply ownScript_more, Hinv, Hin).
  all: try (apply in_app_or in Hin as [Hin|[<-|[]]];
            [apply ownScript_more, Hinv, Hin|left; reflexivity]).
  all: apply in_alter in Hin as [Hin|(x & Hl & ->)];
    [apply ownScript_more, Hinv, Hin|].
  all: assert (In x (assignments.st_assignments st)) as Hin0
      by (apply list_elem_of_In, list_elem_of_lookup; eauto).
  all: match goal with
       | |- assignments.ownScript _ _ _ (assignments.setGradingBenchmarks _ _) =>
           destruct (ownScript_more _ e _ (Hinv _ Hin0)) as [Hs|Hown];
           [left; exact Hs|right; exact Hown]
       | |- assignments.ownScript _ _ _ (assignments.setScriptFile _ _) =>
           right; exists e; split; [apply in_or_app; right; left; reflexivity|];
           split; [kinds; reflexivity|]
       end.
  match goal with
  | Hf : assignments.findAssignmentByName _ _ = Some _ |- _ =>
      apply findFrom_Some in Hf as [[Hd _]|(a1 & _ & Hl1 & Hn & _)];
      [discriminate Hd|]
  end.
  rewrite Nat.sub_0_r in Hl1. unfold assignments.folderOf.
  assert (Some a1 = Some x) as Heq by (rewrite <- Hl1; exact Hl).
  injection Heq as <-. symmetry. exact Hn.
Qed.

Lemma walk_own courseID entries visited st st1 :
  (forall a, In a (assignments.st_assignments st) ->
             assignments.ownScript Base Dir visited a) ->
  walkEntries courseID st entries = inr st1 ->
  forall a, In a (assignments.st_assignments st1) ->
            assignments.ownScript Base Dir (visited ++ entries) a.
Proof.
  revert visited st. induction entries as [|e entries IH];
    intros visited st Hinv H; simpl in H.
  - simplify_eq. rewrite app_nil_r. exact Hinv.
  - destruct (visitEntry courseID st e) as [err|st2] eqn:Hv; [discriminate H|].
    replace (visited ++ e :: entries)%list with ((visited ++ [e]) ++ entries)%list
      by (rewrite <- app_assoc; reflexivity).
    apply (IH _ st2); [|exact H]. exact (visit_own _ _ _ _ _ Hinv Hv).
Qed.

(** X18. The default script is whatever the last 'run.sh' of the walk
    leaves: when that file lies in an assignment's folder and not in
    'scripts', no default is applied, also when 'scripts/run.sh' was
    visited before.  Then an assignment of a successful parse with no
    'run.sh' in a folder of its name has an empty script. *)
Theorem X18_default_script_lost dir courseID pre e post result df :
  IsNotExist (Stat dir) = false ->
  Walk dir = (pre ++ e :: post)%list ->
  isFile assignments.scriptFile e = true ->
  folderOf e <> assignments.scriptFolder ->
  (forall e', In e' post -> isFile assignments.scriptFile e' = false) ->
  parse dir courseID = inr (result, df) ->
  forall a,
    In a result ->
    (forall e', In e' (Walk dir) -> isFile assignments.scriptFile e' = true ->
                folderOf e' <> pb.Assignment.Name a) ->
    pb.Assignment.ScriptFile a = "".
Proof.
  intros Hdir Hwalk Hk Hfolder Hpost H a Hin Hnone.
  destruct (parse_inv _ _ _ _ Hdir H) as (st & Hw & _ & ->).
  pose proof Hw as Hw2. rewrite Hwalk in Hw2.
  pose proof (walk_last_script _ _ _ _ _ Hk Hpost Hw2) as Hs.
  apply String.eqb_neq in Hfolder. rewrite Hfolder in Hs.
  rewrite Hs in Hin. simpl in Hin.
  assert (forall a0 : Assignment,
            In a0 (assignments.st_assignments (assignments.mkState [] "" "")) ->
            assignments.ownScript Base Dir [] a0) as Hinit
    by (intros a0 []).
  destruct (walk_own courseID (Walk dir) [] _ _ Hinit Hw a Hin)
    as [Ha|(e' & Hin' & Hk' & Hf')]; [exact Ha|].
  destruct (Hnone e' Hin' Hk' Hf').
Qed.

(** *** The Dockerfile *)

Lemma visit_keeps_dockerfile courseID st e st1 :
  isFile assignments.dockerfile e = false ->
  visitEntry courseID st e = inr st1 ->
  assignments.st_courseDockerfile st1 = assignments.st_courseDockerfile st.
Proof.
  intros Hk H. visits H; kinds; try reflexivity; discriminate Hk.
Qed.

Lemma walk_keeps_dockerfile courseID entries st st1 :
  (forall e, In e entries -> isFile assignments.dockerfile e = false) ->
  walkEntries courseID st entries = inr st1 ->
  assignments.st_courseDockerfile st1 = assignments.st_courseDockerfile st.
Proof.
  revert st. induction entries as [|e entries IH]; intros st Hall H; simpl in H.
  - simplify_eq. reflexivity.
  - destruct (visitEntry courseID st e) as [err|st2] eqn:Hv; [discriminate H|].
    rewrite (IH st2); [|intros e' Hin; apply Hall; right; exact Hin|exact H].
    eapply visit_keeps_dockerfile; [|exact Hv]. apply Hall. left. reflexivity.
Qed.

Lemma visit_dockerfile courseID st e st1 :
  isFile assignments.dockerfile e = true ->
  visitEntry courseID st e = inr st1 ->
  ReadFile (assignments.Entry.path e) = Ok (assignments.st_courseDockerfile st1).
Proof.
  intros Hk H. apply isFile_name in Hk as [Hd Hn].
  unfold assignments.visit in H. rewrite Hd, Hn in H. simpl in H.
  destruct (ReadFile (assignments.Entry.path e)) as [contents|err];
    simplify_eq. reflexivity.
Qed.

(** X19. The course Dockerfile of a successful parse is the contents of
    the last 'Dockerfile' the walk visits, in whatever folder, and the
    empty string when the walk visits none. *)
Theorem X19_last_dockerfile_wins dir courseID result df :
  IsNotExist (Stat dir) = false ->
  parse dir courseID = inr (result, df) ->
  ((forall e, In e (Walk dir) -> isFile assignments.dockerfile e = false) ->
   df = "")
  /\ (forall pre e post,
        Walk dir = (pre ++ e :: post)%list ->
        isFile assignments.dockerfile e = true ->
        (forall e', In e' post -> isFile assignments.dockerfile e' = false) ->
        ReadFile (assignments.Entry.path e) = Ok df).
Proof.
  intros Hdir H. destruct (parse_inv _ _ _ _ Hdir H) as (st & Hw & -> & _).
  split.
  - intros Hnone. exact (walk_keeps_dockerfile _ _ _ _ Hnone Hw).
  - intros pre e post Hwalk Hk Hpost. rewrite Hwalk, walk_app in Hw.
    destruct (walkEntries courseID _ pre) as [err|st1]; [discriminate Hw|].
    simpl in Hw.
    destruct (visitEntry courseID st1 e) as [err|st2] eqn:Hv; [discriminate Hw|].
    rewrite (walk_keeps_dockerfile _ _ _ _ Hpost Hw).
    exact (visit_dockerfile _ _ _ _ Hk Hv).
Qed.

(** ** readAssignmentFile *)

(** X20. An assignment read from its file has id 0: the yaml's
    assignment id goes to the order, cut to 32 bits.  Its score limit is
    the default 80 when the yaml gives none (0) and the yaml's limit when
    that is between 1 and 2^32 - 1, so it is at least 1 for every limit
    below 2^32.  It has no script yet. *)
Theorem X20_assignment_defaults path filename courseID a :
  readAssignment path filename courseID = inr a ->
  exists source data,
    ReadFile path = Ok source
    /\ yamlUnmarshal source = Ok data
    /\ pb.Assignment.ID a = 0
    /\ pb.Assignment.Order a = assignments.AssignmentID data mod 2 ^ 32
    /\ pb.Assignment.ScriptFile a = ""
    /\ (assignments.ScoreLimit data = 0 -> pb.Assignment.ScoreLimit a = 80)
    /\ (0 < assignments.ScoreLimit data < 2 ^ 32 ->
        pb.Assignment.ScoreLimit a = assignments.ScoreLimit data)
    /\ (assignments.ScoreLimit data < 2 ^ 32 -> 1 <= pb.Assignment.ScoreLimit a).
Proof.
  intros H. unfold assignments.readAssignmentFile in H.
  destruct (ReadFile path) as [source|err] eqn:Hr; [|discriminate H].
  destruct (yamlUnmarshal source) as [data|err] eqn:Hy; [|discriminate H].
  injection H as <-. exists source, data. simpl.
  unfold assignments.uint32, assignments.defaultAutoApproveScoreLimit.
  split; [reflexivity|]. split; [exact Hy|].
  do 3 (split; [reflexivity|]). split; [|split].
  - intros ->. reflexivity.
  - intros [Hpos Hlt].
    replace (assignments.ScoreLimit data <? 1) with false
      by (symmetry; apply N.ltb_ge; lia).
    apply N.mod_small. exact Hlt.
  - intros Hlt. destruct (assignments.ScoreLimit data <? 1) eqn:Hs.
    + vm_compute. discriminate.
    + apply N.ltb_ge in Hs. rewrite N.mod_small by exact Hlt. exact Hs.
Qed.

Lemma fixWith_invalid layouts in_ :
  (forall layout, In layout layouts -> exists err, Parse layout in_ = Err err) ->
  assignments.fixWith Time Parse Format TimeLayout layouts in_ =
  String.append "Invalid date format: " in_.
Proof.
  induction layouts as [|layout layouts IH]; intros Hall; simpl; [reflexivity|].
  destruct (Hall layout (or_introl eq_refl)) as [err ->].
  apply IH. intros l Hin. apply Hall. right. exact Hin.
Qed.

(** X21. A deadline that none of the accepted layouts parses is no error:
    the file is read all the same, and the assignment's deadline is the
    text 'Invalid date format: ' followed by what the yaml gave. *)
Theorem X21_invalid_deadline_is_kept path filename courseID source data :
  ReadFile path = Ok source ->
  yamlUnmarshal source = Ok data ->
  (forall layout, In layout assignments.acceptedLayouts ->
                  exists err, Parse layout (assignments.Deadline data) = Err err) ->
  exists a,
    readAssignment path filename courseID = inr a
    /\ pb.Assignment.Deadline a =
         String.append "Invalid date format: " (assignments.Deadline data).
Proof.
  intros Hr Hy Hall. unfold assignments.readAssignmentFile. rewrite Hr, Hy.
  eexists. split; [reflexivity|]. simpl. unfold assignments.FixDeadline.
  apply fixWith_invalid. exact Hall.
Qed.

(** ** Files in the wrong order *)

(** X22. A 'criteria.json' fails the whole parse when no assignment file
    visited before it lies in a folder of the same base name as its own
    folder (the assignment is looked up by that name, so an assignment
    file in any folder of that name would count): when the entries
    before it are read without error, parseAssignments returns the error
    that no assignment of that name was found, and no assignments. *)
Theorem X22_criteria_before_assignment dir courseID pre e post criteria benchmarks :
  IsNotExist (Stat dir) = false ->
  Walk dir = (pre ++ e :: post)%list ->
  isFile assignments.criteriaFile e = true ->
  ReadFile (assignments.Entry.path e) = Ok criteria ->
  jsonUnmarshal criteria = Ok benchmarks ->
  (forall e', In e' pre -> isAssignmentFile e' = true ->
              folderOf e' <> folderOf e) ->
  exists err,
    parse dir courseID = inl err
    /\ (forall st,
          walkEntries courseID (assignments.mkState [] "" "") pre = inr st ->
          err = assignments.NoAssignmentForBenchmark (folderOf e)).
Proof.
  intros Hdir Hwalk Hk Hread Hjson Hpre.
  unfold assignments.parseAssignments. rewrite Hdir, Hwalk, walk_app.
  destruct (walkEntries courseID _ pre) as [err|st] eqn:Hw.
  - exists err. split; [reflexivity|]. intros st Hst. discriminate Hst.
  - assert (assignments.findAssignmentByName (assignments.st_assignments st)
              (folderOf e) = None) as Hfind.
    { apply findFrom_None. split; [reflexivity|]. intros a Hin Hname.
      apply walk_identity in Hw. simpl in Hw.
      assert (In (assignments.identityOf a)
                 (map assignments.identityOf (assignments.st_assignments st)))
        as Hid by (apply in_map; exact Hin).
      rewrite Hw in Hid. apply in_map_iff in Hid as (e' & Heq & Hin').
      apply filter_In in Hin' as [Hin' Hk'].
      unfold assignments.identityOf in Heq. injection Heq as Heq.
      apply (Hpre e' Hin' Hk'). congruence. }
    apply isFile_name in Hk as [Hd Hn].
    simpl. unfold assignments.visit. rewrite Hd, Hn. simpl.
    unfold assignments.updateCriteriaFromFile.
    rewrite Hread, Hjson. unfold assignments.folderOf in Hfind.
    rewrite Hfind. eexists. split; [reflexivity|].
    intros st' Hst'. reflexivity.
Qed.

End ParserProperties.

(** * The further properties at the scenarios *)

(** Settles a statement about every entry of an explicit list. *)
Ltac each Hin tac :=
  repeat (destruct Hin as [<-|Hin]; [tac|]); destruct Hin.

(** X1 at the request of a member who is no administrator. *)
Lemma X1_witness :
  run (PatchGroup Sim.Teacher Sim.parseUint Sim.getSCM Sim.db memberRequest)
      Sim.world0 = (NoContent StatusForbidden, Sim.world0, [])
  /\ reported (NoContent StatusForbidden) = None.
Proof.
  apply (X1_non_admin_forbidden Sim.Teacher Sim.parseUint Sim.getSCM Sim.db
           memberRequest Sim.world0 42 (UpdateGroupRequest.mk 2)).
  - vm_compute. reflexivity.
  - reflexivity.
  - simpl. unfold Sim.Teacher. lia.
  - simpl. discriminate.
Defined.

(** X2 at a request for group 43, which the store does not have. *)
Lemma X2_witness :
  (forall id e,
     In (EvGetGroup true id (Err e)) runMissing.2 ->
     runMissing.2 = [EvGetGroup true id (Err e)]
     /\ runMissing.1.1 = Failed (notFoundAs "group not found" e))
  /\ (forall cid e,
        In (EvGetCourse cid (Err e)) runMissing.2 ->
        (exists id grp,
           runMissing.2 = [EvGetGroup true id (Ok grp); EvGetCourse cid (Err e)])
        /\ runMissing.1.1 = Failed (notFoundAs "course not found" e)).
Proof.
  apply (X2_lookup_failure_stops Sim.Teacher Sim.parseUint Sim.getSCM Sim.db
           (Sim.request "43" 2) Sim.world0 runMissing.1.1 runMissing.1.2).
  vm_compute. reflexivity.
Defined.

(** X3 at the end-to-end scenario with the provider in an outage. *)
Lemma X3_witness :
  runOutage.1.1 = Failed (OtherError "provider unavailable")
  /\ exists pre,
       runOutage.2 =
         (pre ++ [EvCreateRepository
                    (scm.CreateRepositoryOptions.mk dir11 "g42" true)
                    (Err (OtherError "provider unavailable"))])%list.
Proof.
  apply (X3_fails_fast Sim.Teacher Sim.parseUint Sim.getOutage Sim.db
           (Sim.request "42" 2) Sim.world0 runOutage.1.1 runOutage.1.2).
  - vm_compute. reflexivity.
  - vm_compute. auto 10.
  - reflexivity.
Defined.

(** X4 at the scenario with an unlinked member: the run fails after the
    status of the group has been updated. *)
Lemma X4_witness :
  exists id grp ngrp record,
    In (EvGetGroup true id (Ok grp)) runUnlinked.2
    /\ echoContext.Bind (Sim.request "42" 2) = Ok ngrp
    /\ 42 = models.Group.ID grp
    /\ 2 = UpdateGroupRequest.Status ngrp
    /\ List.filter isStoreWrite runUnlinked.2 =
         [EvDbCreateRepository record None; EvUpdateGroupStatus 42 2 None].
Proof.
  apply (X4_status_update_stays Sim.Teacher Sim.parseUint Sim.getSCM Sim.db
           (Sim.request "42" 2) Sim.worldUnlinked
           runUnlinked.1.1 runUnlinked.1.2).
  - vm_compute. reflexivity.
  - vm_compute. auto 10.
Defined.

(** X5 at the end-to-end scenario. *)
Lemma X5_witness :
  exists id grp cid course did dir resolved team,
    In (EvGetGroup true id (Ok grp)) runFresh.2
    /\ In (EvGetCourse cid (Ok course)) runFresh.2
    /\ In (EvGetDirectory did (Ok dir)) runFresh.2
    /\ Forall2 (fun u p => remoteIDIs (models.Course.Provider course) u (fst p))
               (models.Group.Users grp) resolved
    /\ List.filter isGetUserNameByID runFresh.2 = lookupsOf resolved
    /\ In (EvCreateTeam
             (scm.CreateTeamOptions.mk
                (scm.Directory.mk 0 (scm.Directory.Path dir))
                (models.Group.Name grp) (map snd resolved))
             (Ok team)) runFresh.2.
Proof.
  apply (X5_members_resolved_in_order Sim.Teacher Sim.parseUint Sim.getSCM
           Sim.db (Sim.request "42" 2) Sim.world0 runFresh.1.1 runFresh.1.2).
  - vm_compute. reflexivity.
  - vm_compute. reflexivity.
Defined.

(** X6 at the end-to-end scenario. *)
Lemma X6_witness :
  exists id grp dir repos repo record topt team,
    In (EvGetGroup true id (Ok grp)) runFresh.2
    /\ In (EvGetRepositories dir (Ok repos)) runFresh.2
    /\ (lastAt (models.Group.Name grp) repos = Some repo
        \/ (lastAt (models.Group.Name grp) repos = None
            /\ exists opt, In (EvCreateRepository opt (Ok repo)) runFresh.2))
    /\ In (EvDbCreateRepository record None) runFresh.2
    /\ models.Repository.RepositoryID record = scm.Repository.ID repo
    /\ models.Repository.HTMLURL record = scm.Repository.WebURL repo
    /\ In (EvCreateTeam topt (Ok team)) runFresh.2
    /\ In (EvAddTeamRepo
             (scm.AddTeamRepoOptions.mk (scm.Team.ID team)
                (scm.Repository.Owner repo) (scm.Repository.Path repo))
             None) runFresh.2.
Proof.
  apply (X6_recorded_repository_is_attached Sim.Teacher Sim.parseUint
           Sim.getSCM Sim.db (Sim.request "42" 2) Sim.world0
           runFresh.1.1 runFresh.1.2).
  - vm_compute. reflexivity.
  - vm_compute. reflexivity.
Defined.

(** X7 at the end-to-end scenario. *)
Lemma X7_witness :
  exists id grp dir repos,
    In (EvGetGroup true id (Ok grp)) runFresh.2
    /\ In (EvGetRepositories dir (Ok repos)) runFresh.2
    /\ map methodOf runFresh.2 =
         ([MGetGroup; MGetCourse; MGetDirectory; MGetRepositories]
          ++ match lastAt (models.Group.Name grp) repos with
             | Some _ => []
             | None => [MCreateRepository]
             end
          ++ [MDbCreateRepository; MUpdateGroupStatus]
          ++ repeat MGetUserNameByID (length (models.Group.Users grp))
          ++ [MCreateTeam; MAddTeamRepo])%list.
Proof.
  apply (X7_order_of_calls Sim.Teacher Sim.parseUint Sim.getSCM Sim.db
           (Sim.request "42" 2) Sim.world0 runFresh.1.1 runFresh.1.2).
  - vm_compute. reflexivity.
  - vm_compute. reflexivity.
Defined.

(** X8 at the deletion of the pending group 42. *)
Lemma X8_witness :
  exists group,
    Sim.parseUint (echoContext.Param (Sim.request "42" 0) "gid") = Ok 42
    /\ (simDelete (Sim.request "42" 0) Sim.world0).2 =
         [EvGetGroup false 42 (Ok group); EvDeleteGroup 42 None]
    /\ models.Group.Status group <= Sim.Rejected
    /\ (simDelete (Sim.request "42" 0) Sim.world0).1.1 = NoContent StatusOK.
Proof.
  apply (X8_delete_only_pending_or_rejected Sim.Rejected Sim.parseUint Sim.db
           (Sim.request "42" 0) Sim.world0
           (simDelete (Sim.request "42" 0) Sim.world0).1.1
           (simDelete (Sim.request "42" 0) Sim.world0).1.2
           (simDelete (Sim.request "42" 0) Sim.world0).2 42 None).
  - vm_compute. reflexivity.
  - vm_compute. auto.
Defined.

(** X9 at the deletion of group 42 once its status is [Teacher]. *)
Lemma X9_witness :
  (forall gid group,
     In (EvGetGroup false gid (Ok group))
        (simDelete (Sim.request "42" 0) Sim.worldTeacher).2 ->
     Sim.Rejected < models.Group.Status group ->
     (simDelete (Sim.request "42" 0) Sim.worldTeacher).2 =
       [EvGetGroup false gid (Ok group)]
     /\ (simDelete (Sim.request "42" 0) Sim.worldTeacher).1.1 =
          Failed (HTTPError StatusForbidden "accepted group cannot be deleted"))
  /\ (forall gid e,
        In (EvGetGroup false gid (Err e))
           (simDelete (Sim.request "42" 0) Sim.worldTeacher).2 ->
        (simDelete (Sim.request "42" 0) Sim.worldTeacher).2 =
          [EvGetGroup false gid (Err e)]
        /\ (simDelete (Sim.request "42" 0) Sim.worldTeacher).1.1 =
             Failed (notFoundAs "group not found" e)).
Proof.
  apply (X9_delete_refused Sim.Rejected Sim.parseUint Sim.db
           (Sim.request "42" 0) Sim.worldTeacher
           (simDelete (Sim.request "42" 0) Sim.worldTeacher).1.1
           (simDelete (Sim.request "42" 0) Sim.worldTeacher).1.2).
  vm_compute. reflexivity.
Defined.

(** X10 at the lookup of group 42. *)
Lemma X10_witness :
  List.filter isWrite (simGet (Sim.request "42" 0) Sim.world0).2 = []
  /\ List.filter isRemote (simGet (Sim.request "42" 0) Sim.world0).2 = []
  /\ (forall reply,
        (simGet (Sim.request "42" 0) Sim.world0).1.1 = inr reply ->
        exists gid group,
          Sim.parseUint (echoContext.Param (Sim.request "42" 0) "gid") = Ok gid
          /\ (simGet (Sim.request "42" 0) Sim.world0).2 =
               [EvGetGroup false gid (Ok group)]
          /\ reply = JSONPretty StatusOK group tab)
  /\ (forall gid e,
        In (EvGetGroup false gid (Err e))
           (simGet (Sim.request "42" 0) Sim.world0).2 ->
        (simGet (Sim.request "42" 0) Sim.world0).2 =
          [EvGetGroup false gid (Err e)]
        /\ (simGet (Sim.request "42" 0) Sim.world0).1.1 =
             inl (Failed (notFoundAs "group not found" e)))
  /\ (forall e,
        Sim.parseUint (echoContext.Param (Sim.request "42" 0) "gid") = Err e ->
        (simGet (Sim.request "42" 0) Sim.world0).2 = []
        /\ (simGet (Sim.request "42" 0) Sim.world0).1.2 = Sim.world0
        /\ (simGet (Sim.request "42" 0) Sim.world0).1.1 = inl (Failed e)).
Proof.
  apply (X10_GetGroup_reads_only Sim.parseUint Sim.db (Sim.request "42" 0)
           Sim.world0).
  vm_compute. reflexivity.
Defined.

(** X11 at the request of the administrator, user 3. *)
Lemma X11_witness :
  exists rs,
    simSCM (Sim.withUser ["3"]) "P" Sim.world0 =
      (rs, (simUser (Sim.withUser ["3"]) Sim.world0).1.2,
       (simUser (Sim.withUser ["3"]) Sim.world0).2)
    /\ (forall e, (simUser (Sim.withUser ["3"]) Sim.world0).1.1 = Err e ->
                  rs = Err e)
    /\ List.filter isWrite (simUser (Sim.withUser ["3"]) Sim.world0).2 = []
    /\ (length (simUser (Sim.withUser ["3"]) Sim.world0).2 <= 1)%nat.
Proof.
  apply (X11_getSCM_adds_no_call Sim.db (Sim.withUser ["3"]) scms0 "P"
           Sim.world0).
  vm_compute. reflexivity.
Defined.

(** X12 at the administrator and provider "Q", to which he has no link. *)
Lemma X12_witness :
  simSCM (Sim.withUser ["3"]) "Q" Sim.world0 =
    (Err (StatusError NotFound "No SCM found"), Sim.world0,
     [EvGetUser 3 (Ok Sim.admin)])
  <-> linked "Q" Sim.admin = false.
Proof.
  apply (X12_getSCM_not_found_iff_unlinked Sim.db (Sim.withUser ["3"]) scms0
           "Q" Sim.world0 Sim.admin).
  vm_compute. reflexivity.
Defined.

(** X13 at the user whose first identity of "P" has a stale token. *)
Lemma X13_witness :
  simSCM (Sim.withUser ["5"]) "P" worldTwoLinks =
    (Err (StatusError PermissionDenied "Invalid token"), worldTwoLinks,
     [EvGetUser 5 (Ok twoLinks)]).
Proof.
  apply (X13_getSCM_first_identity_decides Sim.db (Sim.withUser ["5"]) scms0
           "P" worldTwoLinks twoLinks worldTwoLinks [EvGetUser 5 (Ok twoLinks)]
           [] (models.RemoteIdentity.mk "P" 5 "stale")
           [models.RemoteIdentity.mk "P" 5 "token3"]).
  - vm_compute. reflexivity.
  - reflexivity.
  - intros v [].
  - reflexivity.
  - vm_compute. reflexivity.
Defined.

(** X14 at the request of the administrator for provider "P". *)
Lemma X14_witness :
  exists user identity,
    getCurrentUser (Sim.withUser ["3"]) Sim.db Sim.world0 =
      (Ok user, Sim.world0, [EvGetUser 3 (Ok Sim.admin)])
    /\ firstIdentity "P" user = Some identity
    /\ In identity (models.User.RemoteIdentities user)
    /\ models.RemoteIdentity.Provider identity = "P"
    /\ scms0 !! models.RemoteIdentity.AccessToken identity = Some Sim.client.
Proof.
  apply (X14_getSCM_returns_registered_client Sim.db (Sim.withUser ["3"])
           scms0 "P" Sim.world0 Sim.client Sim.world0
           [EvGetUser 3 (Ok Sim.admin)]).
  vm_compute. reflexivity.
Defined.

(** X16 at the course directory 'labs'. *)
Lemma X16_witness :
  map assignments.identityOf (Disk.resultOf (Disk.parse "labs")) =
  map (fun e => (0, 7, assignments.folderOf Disk.Base Disk.Dir e))
      (List.filter (assignments.isAssignmentFile Disk.Base) (Disk.Walk "labs")).
Proof.
  apply (X16_one_assignment_per_file Disk.ReadFile Disk.yamlUnmarshal
           Disk.jsonUnmarshal Disk.Base Disk.Dir Disk.Stat Disk.IsNotExist
           Disk.Walk string Disk.Parse Disk.Format Disk.TimeLayout "labs" 7
           (Disk.resultOf (Disk.parse "labs"))
           (Disk.dockerfileOf (Disk.parse "labs"))).
  - reflexivity.
  - vm_compute. reflexivity.
Defined.

(** X17 at 'labs', where 'scripts/run.sh' is the last script visited. *)
Lemma X17_witness :
  List.Forall (fun a => pb.Assignment.ScriptFile a <> "")
              (Disk.resultOf (Disk.parse "labs")).
Proof.
  apply List.Forall_forall.
  apply (X17_default_script_fills_gaps Disk.ReadFile Disk.yamlUnmarshal
           Disk.jsonUnmarshal Disk.Base Disk.Dir Disk.Stat Disk.IsNotExist
           Disk.Walk string Disk.Parse Disk.Format Disk.TimeLayout "labs" 7
           (firstn 9 (Disk.Walk "labs")) (Disk.file "labs/scripts/run.sh") []
           "go test ./..."
           (Disk.resultOf (Disk.parse "labs"))
           (Disk.dockerfileOf (Disk.parse "labs"))).
  - reflexivity.
  - reflexivity.
  - vm_compute. reflexivity.
  - vm_compute. reflexivity.
  - intros e' [].
  - vm_compute. reflexivity.
  - discriminate.
  - vm_compute. reflexivity.
Defined.

(** X18 at 'late', where the script of 'zlab' is visited after
    'scripts/run.sh': 'lab1' is left without a script. *)
Lemma X18_witness :
  List.Forall
    (fun a =>
       (forall e', In e' (Disk.Walk "late") ->
                   assignments.isFile Disk.Base assignments.scriptFile e' = true ->
                   assignments.folderOf Disk.Base Disk.Dir e' <> pb.Assignment.Name a) ->
       pb.Assignment.ScriptFile a = "")
    (Disk.resultOf (Disk.parse "late")).
Proof.
  apply List.Forall_forall.
  apply (X18_default_script_lost Disk.ReadFile Disk.yamlUnmarshal
           Disk.jsonUnmarshal Disk.Base Disk.Dir Disk.Stat Disk.IsNotExist
           Disk.Walk string Disk.Parse Disk.Format Disk.TimeLayout "late" 7
           (firstn 7 (Disk.Walk "late")) (Disk.file "late/zlab/run.sh") []
           (Disk.resultOf (Disk.parse "late"))
           (Disk.dockerfileOf (Disk.parse "late"))).
  - reflexivity.
  - reflexivity.
  - vm_compute. reflexivity.
  - vm_compute. discriminate.
  - intros e' [].
  - vm_compute. reflexivity.
Defined.

(** X19 at 'labs', whose only Dockerfile is at the top. *)
Lemma X19_witness :
  ((forall e, In e (Disk.Walk "labs") ->
              assignments.isFile Disk.Base assignments.dockerfile e = false) ->
   Disk.dockerfileOf (Disk.parse "labs") = "")
  /\ (forall pre e post,
        Disk.Walk "labs" = (pre ++ e :: post)%list ->
        assignments.isFile Disk.Base assignments.dockerfile e = true ->
        (forall e', In e' post ->
                    assignments.isFile Disk.Base assignments.dockerfile e' = false) ->
        Disk.ReadFile (assignments.Entry.path e) =
          Ok (Disk.dockerfileOf (Disk.parse "labs"))).
Proof.
  apply (X19_last_dockerfile_wins Disk.ReadFile Disk.yamlUnmarshal
           Disk.jsonUnmarshal Disk.Base Disk.Dir Disk.Stat Disk.IsNotExist
           Disk.Walk string Disk.Parse Disk.Format Disk.TimeLayout "labs" 7
           (Disk.resultOf (Disk.parse "labs"))).
  - reflexivity.
  - vm_compute. reflexivity.
Defined.

(** X20 at the assignment file of 'lab1', which gives no score limit. *)
Lemma X20_witness :
  exists source data,
    Disk.ReadFile "labs/lab1/assignment.yml" = Ok source
    /\ Disk.yamlUnmarshal source = Ok data
    /\ 0 = 0
    /\ 1 = assignments.AssignmentID data mod 2 ^ 32
    /\ "" = ""
    /\ (assignments.ScoreLimit data = 0 -> 80 = 80)
    /\ (0 < assignments.ScoreLimit data < 2 ^ 32 ->
        80 = assignments.ScoreLimit data)
    /\ (assignments.ScoreLimit data < 2 ^ 32 -> 1 <= 80).
Proof.
  apply (X20_assignment_defaults (B:=string) Disk.ReadFile Disk.yamlUnmarshal
           Disk.Base Disk.Dir string Disk.Parse Disk.Format Disk.TimeLayout
           "labs/lab1/assignment.yml" "assignment.yml" 7
           (pb.Assignment.mk 0 7 "lab1" "" "2021-03-04T10:00:00" true 1 false
                             80 0 0 [])).
  vm_compute. reflexivity.
Defined.

(** X21 at the assignment file of 'lab2', whose deadline is "soon". *)
Lemma X21_witness :
  exists a : pb.Assignment.t string,
    Disk.read "labs/lab2/assignment.yaml" = inr a
    /\ pb.Assignment.Deadline a = String.append "Invalid date format: " "soon".
Proof.
  apply (X21_invalid_deadline_is_kept (B:=string) Disk.ReadFile
           Disk.yamlUnmarshal Disk.Base Disk.Dir string Disk.Parse Disk.Format
           Disk.TimeLayout "labs/lab2/assignment.yaml" "assignment.yml" 7
           "yaml2" Disk.data2).
  - vm_compute. reflexivity.
  - reflexivity.
  - intros layout Hin.
    each Hin ltac:(eexists; vm_compute; reflexivity).
Defined.

(** X22 at 'stray', which has a 'criteria.json' and no assignment file. *)
Lemma X22_witness :
  exists err,
    Disk.parse "stray" = inl err
    /\ (forall st,
          assignments.walkFrom Disk.ReadFile Disk.yamlUnmarshal
            Disk.jsonUnmarshal Disk.Base Disk.Dir string Disk.Parse Disk.Format
            Disk.TimeLayout 7 (assignments.mkState [] "" "")
            (firstn 2 (Disk.Walk "stray")) = inr st ->
          err = assignments.NoAssignmentForBenchmark
                  (assignments.folderOf Disk.Base Disk.Dir
                     (Disk.file "stray/lab3/criteria.json"))).
Proof.
  apply (X22_criteria_before_assignment Disk.ReadFile Disk.yamlUnmarshal
           Disk.jsonUnmarshal Disk.Base Disk.Dir Disk.Stat Disk.IsNotExist
           Disk.Walk string Disk.Parse Disk.Format Disk.TimeLayout "stray" 7
           (firstn 2 (Disk.Walk "stray")) (Disk.file "stray/lab3/criteria.json")
           [] "json1" ["test coverage"]).
  - reflexivity.
  - reflexivity.
  - vm_compute. reflexivity.
  - vm_compute. reflexivity.
  - vm_compute. reflexivity.
  - intros e' Hin Hk. vm_compute in Hin.
    each Hin ltac:(vm_compute in Hk; discriminate Hk).
Defined.
